(** * fmusim: the forward-Euler simulation loop of the FMU SDK

    A shallow embedding of [fmuSimulate] (src/source/fmusim/fmusim.c) and
    the properties of its loop: time advance and time events, state-event
    detection, error handling, row output, cleanup.

    Modelling conventions.
    - A C [double] is an exact rational ([Q]); rounding, NaN and infinities
      are outside the model.  Comparisons are the C comparisons on these
      numbers, equality of computed values is [Qeq] where arithmetic is
      involved and Leibniz equality where the code merely assigns.  A sum
      or a difference of the model is therefore the exact one where the
      program has the rounded one: the properties below are stated on the
      expressions the code itself computes ([simtime + h],
      [simtime - tPre], [prez[i] * z[i]]), and none of them counts steps
      or compares [dt] with [h], which rounding can change.
    - The arrays [x], [xdot], [z], [prez] are lists; [x[i]] is [nth i x 0].
      The counts [nx], [nz] are naturals: the loops over the arrays run for
      [i < nx], [i < nz] and do nothing for a count that is not positive.
    - The [int] counters are integers ([Z]); signed overflow is undefined
      in C and outside the model.
    - The FMU is a record of functions over an abstract instance state;
      an out-parameter becomes a returned component, and a buffer that the
      callee fills is passed in and returned.
    - [fprintf] diagnostics are not modelled, except the calls of
      [fmuError], whose messages are collected in [errlog]. *)

From Stdlib Require Import String Ascii QArith ZArith List Bool Lia Lqa.
Import ListNotations.

Open Scope Q_scope.

(** ** Numbers *)

(** The C comparison [a < b] on doubles. *)
Definition Qltb (a b : Q) : bool := negb (Qle_bool b a).

(** [#define min(a,b) (a>b ? b : a)] *)
Definition min (a b : Q) : Q := if Qltb b a then b else a.

(** ** Arrays and [for] loops *)

(** [l[i] = v].  The arrays of the program have as many entries as their
    loops run over ([calloc(nx, ...)], [calloc(nz, ...)]), so that every
    store of the program is inside its array; a store outside, which C
    leaves undefined, leaves the list as it is, and no property below is
    about such a store. *)
Fixpoint store (i : nat) (v : Q) (l : list Q) : list Q :=
  match l, i with
  | [], _ => []
  | _ :: t, O => v :: t
  | a :: t, S j => a :: store j v t
  end.

(** [for (i = start; i < start + n; i++) a = body i a] *)
Fixpoint for_from {A : Type} (start n : nat) (body : nat -> A -> A) (a : A) : A :=
  match n with
  | O => a
  | S m => for_from (S start) m body (body start a)
  end.

(** [for (i = 0; i < n; i++) a = body i a] *)
Definition for_loop {A : Type} (n : nat) (body : nat -> A -> A) (a : A) : A :=
  for_from 0 n body a.

(** [for (i=0; i<nx; i++) x[i] += dt*xdot[i];] (fmusim.c:115) *)
Definition euler (nx : nat) (x xdot : list Q) (dt : Q) : list Q :=
  for_loop nx (fun i x => store i (nth i x 0 + dt * nth i xdot 0) x) x.

(** [for (i=0; i<nz; i++) prez[i] = z[i];] (fmusim.c:125) *)
Definition save_indicators (nz : nat) (prez z : list Q) : list Q :=
  for_loop nz (fun i prez => store i (nth i z 0) prez) prez.

(** [stateEvent = FALSE;
     for (i=0; i<nz; i++) stateEvent = stateEvent || (prez[i] * z[i] < 0);]
    (fmusim.c:128-130) *)
Definition detectStateEvent (nz : nat) (prez z : list Q) : bool :=
  for_loop nz (fun i stateEvent =>
                 stateEvent || Qltb (nth i prez 0 * nth i z 0) 0) false.


(** ** The FMI types used by the simulator *)

(** The [fmiStatus] enumeration is declared in a header that is not part of
    the sources at hand; a status is the integer value of the enumerator
    and the value of [fmiWarning] is a parameter of the development. *)
Definition fmiStatus : Type := Z.

(** The fields of [fmiEventInfo] that [fmuSimulate] reads. *)
Record fmiEventInfo : Type := mkEventInfo {
  stateValueReferencesChanged : bool;
  stateValuesChanged : bool;
  terminateSimulation : bool;
  upcomingTimeEvent : bool;
  nextEventTime : Q
}.

(** What [fmuSimulate] asks of the parsed model description. *)
Record ModelDescription : Type := mkModelDescription {
  getNumberOfStates : nat;
  getNumberOfEventIndicators : nat
}.

Set Implicit Arguments.

(** The loaded FMU: the functions [fmuSimulate] calls through [fmu->...],
    acting on an instance state of type [C].  Every function returns its
    status first and the instance as the call left it. *)
Record FMU (C : Type) : Type := mkFMU {
  modelDescription : ModelDescription;
  instantiateModel : bool -> option C;
  setTime : C -> Q -> fmiStatus * C;
  initialize : C -> bool -> Q -> fmiStatus * C * fmiEventInfo;
  getContinuousStates : C -> list Q -> nat -> fmiStatus * C * list Q;
  getDerivatives : C -> list Q -> nat -> fmiStatus * C * list Q;
  setContinuousStates : C -> list Q -> nat -> fmiStatus * C;
  completedIntegratorStep : C -> fmiStatus * C * bool;
  getEventIndicators : C -> list Q -> nat -> fmiStatus * C * list Q;
  eventUpdate : C -> bool -> fmiEventInfo -> fmiStatus * C * fmiEventInfo
}.

(** ** The result file *)

(** A call of [outputRow]: the line of column names, or the values at a
    time [t]. *)
Inductive Row : Type :=
| Header
| Values (t : Q).

(** Modelled from the spec: [outputRow] (fmuio, absent from the sources)
    emits one row stamped with the simulated time it is given; with
    [header] set it emits the column names instead.  The rows are kept in
    the order they are written. *)
Definition outputRow (t : Q) (header : bool) (rows : list Row) : list Row :=
  rows ++ [if header then Header else Values t].

(** ** The state of a run *)

(** The local variables of [fmuSimulate] that live across statements, and
    what the run has done to the world so far. *)
Record Sim (C : Type) : Type := mkSim {
  comp : C;  (* the instance [c], as the FMU left it *)
  simtime : Q;
  dt : Q;
  x : list Q;  (* continuous states *)
  xdot : list Q;  (* their derivatives *)
  z : list Q;  (* state event indicators *)
  prez : list Q;  (* previous values of the indicators *)
  eventInfo : fmiEventInfo;  (* updated by initialize and eventUpdate *)
  timeEvent : bool;
  stateEvent : bool;
  stepEvent : bool;
  nSteps : Z;
  nTimeEvents : Z;
  nStepEvents : Z;
  nStateEvents : Z;
  file : option (list Row);  (* rows written to the open result file; [None]: no file *)
  fileClosed : bool;  (* [fclose(file)] was called *)
  instanceFreed : bool;  (* [freeModelInstance(c)] was called *)
  errlog : list string  (* messages given to [fmuError] *)
}.

(** How one pass through the loop body ends. *)
Inductive Outcome (C : Type) : Type :=
| Next (s : Sim C)                  (* the end of the body is reached *)
| Break (s : Sim C)                 (* [break] *)
| Abort (msg : string) (s : Sim C). (* [return fmuError(msg)] *)

(** How [fmuSimulate] returns. *)
Inductive Exit : Type :=
| Success                 (* [return 1] *)
| Failure                 (* [return 0] *)
| Error (msg : string).   (* [return fmuError(msg)] *)

Inductive Result (C : Type) : Type :=
| NoInstance                        (* no instance was created *)
| Returned (e : Exit) (s : Sim C).

Arguments NoInstance {C}.

Unset Implicit Arguments.

Definition state {C : Type} (o : Outcome C) : Sim C :=
  match o with
  | Next s | Break s | Abort _ s => s
  end.

(** Sequencing of statements: what follows runs only when the control
    reaches it. *)
Definition bind {C : Type} (o : Outcome C) (k : Sim C -> Outcome C) : Outcome C :=
  match o with
  | Next s => k s
  | Break s => Break s
  | Abort msg s => Abort msg s
  end.

Notation "o >>= k" := (bind o k) (at level 50, left associativity).

Section Setters.
Context {C : Type}.

Definition with_comp (v : C) (s : Sim C) : Sim C :=
  mkSim v (simtime s) (dt s) (x s) (xdot s) (z s) (prez s) (eventInfo s)
        (timeEvent s) (stateEvent s) (stepEvent s) (nSteps s)
        (nTimeEvents s) (nStepEvents s) (nStateEvents s) (file s)
        (fileClosed s) (instanceFreed s) (errlog s).

Definition with_simtime (v : Q) (s : Sim C) : Sim C :=
  mkSim (comp s) v (dt s) (x s) (xdot s) (z s) (prez s) (eventInfo s)
        (timeEvent s) (stateEvent s) (stepEvent s) (nSteps s)
        (nTimeEvents s) (nStepEvents s) (nStateEvents s) (file s)
        (fileClosed s) (instanceFreed s) (errlog s).

Definition with_dt (v : Q) (s : Sim C) : Sim C :=
  mkSim (comp s) (simtime s) v (x s) (xdot s) (z s) (prez s) (eventInfo s)
        (timeEvent s) (stateEvent s) (stepEvent s) (nSteps s)
        (nTimeEvents s) (nStepEvents s) (nStateEvents s) (file s)
        (fileClosed s) (instanceFreed s) (errlog s).

Definition with_x (v : list Q) (s : Sim C) : Sim C :=
  mkSim (comp s) (simtime s) (dt s) v (xdot s) (z s) (prez s) (eventInfo s)
        (timeEvent s) (stateEvent s) (stepEvent s) (nSteps s)
        (nTimeEvents s) (nStepEvents s) (nStateEvents s) (file s)
        (fileClosed s) (instanceFreed s) (errlog s).

Definition with_xdot (v : list Q) (s : Sim C) : Sim C :=
  mkSim (comp s) (simtime s) (dt s) (x s) v (z s) (prez s) (eventInfo s)
        (timeEvent s) (stateEvent s) (stepEvent s) (nSteps s)
        (nTimeEvents s) (nStepEvents s) (nStateEvents s) (file s)
        (fileClosed s) (instanceFreed s) (errlog s).

Definition with_z (v : list Q) (s : Sim C) : Sim C :=
  mkSim (comp s) (simtime s) (dt s) (x s) (xdot s) v (prez s) (eventInfo s)
        (timeEvent s) (stateEvent s) (stepEvent s) (nSteps s)
        (nTimeEvents s) (nStepEvents s) (nStateEvents s) (file s)
        (fileClosed s) (instanceFreed s) (errlog s).

Definition with_prez (v : list Q) (s : Sim C) : Sim C :=
  mkSim (comp s) (simtime s) (dt s) (x s) (xdot s) (z s) v (eventInfo s)
        (timeEvent s) (stateEvent s) (stepEvent s) (nSteps s)
        (nTimeEvents s) (nStepEvents s) (nStateEvents s) (file s)
        (fileClosed s) (instanceFreed s) (errlog s).

Definition with_eventInfo (v : fmiEventInfo) (s : Sim C) : Sim C :=
  mkSim (comp s) (simtime s) (dt s) (x s) (xdot s) (z s) (prez s) v
        (timeEvent s) (stateEvent s) (stepEvent s) (nSteps s)
        (nTimeEvents s) (nStepEvents s) (nStateEvents s) (file s)
        (fileClosed s) (instanceFreed s) (errlog s).

Definition with_timeEvent (v : bool) (s : Sim C) : Sim C :=
  mkSim (comp s) (simtime s) (dt s) (x s) (xdot s) (z s) (prez s)
        (eventInfo s) v (stateEvent s) (stepEvent s) (nSteps s)
        (nTimeEvents s) (nStepEvents s) (nStateEvents s) (file s)
        (fileClosed s) (instanceFreed s) (errlog s).

Definition with_stateEvent (v : bool) (s : Sim C) : Sim C :=
  mkSim (comp s) (simtime s) (dt s) (x s) (xdot s) (z s) (prez s)
        (eventInfo s) (timeEvent s) v (stepEvent s) (nSteps s)
        (nTimeEvents s) (nStepEvents s) (nStateEvents s) (file s)
        (fileClosed s) (instanceFreed s) (errlog s).

Definition with_stepEvent (v : bool) (s : Sim C) : Sim C :=
  mkSim (comp s) (simtime s) (dt s) (x s) (xdot s) (z s) (prez s)
        (eventInfo s) (timeEvent s) (stateEvent s) v (nSteps s)
        (nTimeEvents s) (nStepEvents s) (nStateEvents s) (file s)
        (fileClosed s) (instanceFreed s) (errlog s).

Definition with_nSteps (v : Z) (s : Sim C) : Sim C :=
  mkSim (comp s) (simtime s) (dt s) (x s) (xdot s) (z s) (prez s)
        (eventInfo s) (timeEvent s) (stateEvent s) (stepEvent s) v
        (nTimeEvents s) (nStepEvents s) (nStateEvents s) (file s)
        (fileClosed s) (instanceFreed s) (errlog s).

Definition with_nTimeEvents (v : Z) (s : Sim C) : Sim C :=
  mkSim (comp s) (simtime s) (dt s) (x s) (xdot s) (z s) (prez s)
        (eventInfo s) (timeEvent s) (stateEvent s) (stepEvent s) (nSteps s)
        v (nStepEvents s) (nStateEvents s) (file s) (fileClosed s)
        (instanceFreed s) (errlog s).

Definition with_nStepEvents (v : Z) (s : Sim C) : Sim C :=
  mkSim (comp s) (simtime s) (dt s) (x s) (xdot s) (z s) (prez s)
        (eventInfo s) (timeEvent s) (stateEvent s) (stepEvent s) (nSteps s)
        (nTimeEvents s) v (nStateEvents s) (file s) (fileClosed s)
        (instanceFreed s) (errlog s).

Definition with_nStateEvents (v : Z) (s : Sim C) : Sim C :=
  mkSim (comp s) (simtime s) (dt s) (x s) (xdot s) (z s) (prez s)
        (eventInfo s) (timeEvent s) (stateEvent s) (stepEvent s) (nSteps s)
        (nTimeEvents s) (nStepEvents s) v (file s) (fileClosed s)
        (instanceFreed s) (errlog s).

Definition with_file (v : option (list Row)) (s : Sim C) : Sim C :=
  mkSim (comp s) (simtime s) (dt s) (x s) (xdot s) (z s) (prez s)
        (eventInfo s) (timeEvent s) (stateEvent s) (stepEvent s) (nSteps s)
        (nTimeEvents s) (nStepEvents s) (nStateEvents s) v (fileClosed s)
        (instanceFreed s) (errlog s).

Definition with_fileClosed (v : bool) (s : Sim C) : Sim C :=
  mkSim (comp s) (simtime s) (dt s) (x s) (xdot s) (z s) (prez s)
        (eventInfo s) (timeEvent s) (stateEvent s) (stepEvent s) (nSteps s)
        (nTimeEvents s) (nStepEvents s) (nStateEvents s) (file s) v
        (instanceFreed s) (errlog s).

Definition with_instanceFreed (v : bool) (s : Sim C) : Sim C :=
  mkSim (comp s) (simtime s) (dt s) (x s) (xdot s) (z s) (prez s)
        (eventInfo s) (timeEvent s) (stateEvent s) (stepEvent s) (nSteps s)
        (nTimeEvents s) (nStepEvents s) (nStateEvents s) (file s)
        (fileClosed s) v (errlog s).

Definition with_errlog (v : list string) (s : Sim C) : Sim C :=
  mkSim (comp s) (simtime s) (dt s) (x s) (xdot s) (z s) (prez s)
        (eventInfo s) (timeEvent s) (stateEvent s) (stepEvent s) (nSteps s)
        (nTimeEvents s) (nStepEvents s) (nStateEvents s) (file s)
        (fileClosed s) (instanceFreed s) v.

End Setters.

(** ** The simulator *)

Definition t0 : Q := 0.

Definition eventInfo0 : fmiEventInfo := mkEventInfo false false false false 0.

Section Simulator.
Context {C : Type}.
Variable fmiWarning : fmiStatus.
Variable fmu : FMU C.

(** [nx = getNumberOfStates(md); nz = getNumberOfEventIndicators(md);] *)
Definition nx : nat := getNumberOfStates (modelDescription fmu).
Definition nz : nat := getNumberOfEventIndicators (modelDescription fmu).

(** A call of [fmuError] (defined outside the sources at hand): the
    message is reported.  The value the call returns is not looked into:
    [return fmuError(msg)] is the exit [Error msg]. *)
Definition fmuError (msg : string) (s : Sim C) : Sim C :=
  with_errlog (errlog s ++ [msg]) s.

(** [if (fmiFlag > fmiWarning) return fmuError(msg);] *)
Definition check (fmiFlag : fmiStatus) (msg : string) (s : Sim C) : Outcome C :=
  if (fmiWarning <? fmiFlag)%Z then Abort msg (fmuError msg s) else Next s.

(** fmusim.c:100-103 *)
Definition get_state_and_derivatives (s : Sim C) : Outcome C :=
  let '(fmiFlag, c, x') := getContinuousStates fmu (comp s) (x s) nx in
  check fmiFlag "could not retrieve states" (with_x x' (with_comp c s))
  >>= fun s =>
  let '(fmiFlag, c, xdot') := getDerivatives fmu (comp s) (xdot s) nx in
  check fmiFlag "could not retrieve derivatives"
        (with_xdot xdot' (with_comp c s)).

(** fmusim.c:106-110, on the values alone: the new [simtime], [dt] and
    [timeEvent].  The sum [simtime + h] and the difference
    [simtime - tPre] are exact here and rounded in the program; [min], the
    comparison and the choice between the two times are the program's. *)
Definition next_time (tEnd h : Q) (ev : fmiEventInfo) (simtime : Q)
  : Q * Q * bool :=
  let tPre := simtime in
  let simtime := min (simtime + h) tEnd in
  let timeEvent := upcomingTimeEvent ev && Qltb (nextEventTime ev) simtime in
  let simtime := if timeEvent then nextEventTime ev else simtime in
  let dt := simtime - tPre in
  (simtime, dt, timeEvent).

(** fmusim.c:106-112.  A failing [setTime] is reported and the body goes
    on: line 112 has no [return]. *)
Definition advance_simtime (tEnd h : Q) (s : Sim C) : Outcome C :=
  let '(simtime', dt', timeEvent') := next_time tEnd h (eventInfo s) (simtime s) in
  let s := with_dt dt' (with_timeEvent timeEvent' (with_simtime simtime' s)) in
  let '(fmiFlag, c) := setTime fmu (comp s) (simtime s) in
  let s := with_comp c s in
  Next (if (fmiWarning <? fmiFlag)%Z then fmuError "could not set time" s
        else s).

(** fmusim.c:115-117 *)
Definition perform_step (s : Sim C) : Outcome C :=
  let s := with_x (euler nx (x s) (xdot s) (dt s)) s in
  let '(fmiFlag, c) := setContinuousStates fmu (comp s) (x s) nx in
  check fmiFlag "could not set states" (with_comp c s).

(** fmusim.c:121-122 *)
Definition check_step_event (s : Sim C) : Outcome C :=
  let '(fmiFlag, c, stepEvent') := completedIntegratorStep fmu (comp s) in
  check fmiFlag "could not complete intgrator step"
        (with_stepEvent stepEvent' (with_comp c s)).

(** fmusim.c:125-130 *)
Definition check_state_event (s : Sim C) : Outcome C :=
  let s := with_prez (save_indicators nz (prez s) (z s)) s in
  let '(fmiFlag, c, z') := getEventIndicators fmu (comp s) (z s) nz in
  check fmiFlag "could not retrieve event indicators"
        (with_z z' (with_comp c s))
  >>= fun s =>
  Next (with_stateEvent (detectStateEvent nz (prez s) (z s)) s).

(** fmusim.c:135-148 *)
Definition count_events (s : Sim C) : Sim C :=
  let s := if timeEvent s
           then with_nTimeEvents (nTimeEvents s + 1)%Z s else s in
  let s := if stateEvent s
           then with_nStateEvents (nStateEvents s + 1)%Z s else s in
  if stepEvent s then with_nStepEvents (nStepEvents s + 1)%Z s else s.

(** fmusim.c:133-170 *)
Definition handle_events (s : Sim C) : Outcome C :=
  if timeEvent s || stateEvent s || stepEvent s then
    let s := count_events s in
    let '(fmiFlag, c, ev) := eventUpdate fmu (comp s) false (eventInfo s) in
    check fmiFlag "could not perform event update"
          (with_eventInfo ev (with_comp c s))
    >>= fun s =>
    if terminateSimulation (eventInfo s) then Break s else Next s
  else Next s.

(** [if (file) outputRow(fmu, c, t, file, separator, header);] *)
Definition output (t : Q) (header : bool) (s : Sim C) : Sim C :=
  match file s with
  | Some rows => with_file (Some (outputRow t header rows)) s
  | None => s
  end.

(** fmusim.c:171-173 *)
Definition finish_step (s : Sim C) : Outcome C :=
  let s := output (simtime s) false s in
  Next (with_nSteps (nSteps s + 1)%Z s).

(** The body of the [while] loop, fmusim.c:99-173. *)
Definition loop_body (tEnd h : Q) (s : Sim C) : Outcome C :=
  get_state_and_derivatives s
  >>= advance_simtime tEnd h
  >>= perform_step
  >>= check_step_event
  >>= check_state_event
  >>= handle_events
  >>= finish_step.

(** [while (simtime < tEnd) { ... }] with at most [fuel] passes.  [Next s]
    is the loop left by its test, [None] is a loop that needs more passes
    than [fuel]. *)
Fixpoint simulation_loop (fuel : nat) (tEnd h : Q) (s : Sim C)
  : option (Outcome C) :=
  if Qltb (simtime s) tEnd then
    match fuel with
    | O => None
    | S fuel' =>
        match loop_body tEnd h s with
        | Next s' => simulation_loop fuel' tEnd h s'
        | Break s' => Some (Break s')
        | Abort msg s' => Some (Abort msg s')
        end
    end
  else Some (Next s).

(** The states at the loop test: [at_loop_test tEnd h s n s'] when the loop
    entered in [s] comes to its test in [s'] after [n] complete passes. *)
Inductive at_loop_test (tEnd h : Q) (s : Sim C) : nat -> Sim C -> Prop :=
| at_entry : at_loop_test tEnd h s O s
| at_next (n : nat) (s1 s2 : Sim C) :
    at_loop_test tEnd h s n s1 ->
    Qltb (simtime s1) tEnd = true ->
    loop_body tEnd h s1 = Next s2 ->
    at_loop_test tEnd h s (S n) s2.

(** The environment of a run: whether the allocations succeed and which
    result files can be opened for writing. *)
Variable calloc_ok : bool.
Variable fopen_ok : string -> bool.

(** The variables after the allocations, fmusim.c:36-62.  Variables
    without an initial value get a placeholder: each is assigned before
    it is read. *)
Definition allocated (c : C) : Sim C :=
  mkSim c 0 0 (repeat 0 nx) (repeat 0 nx) (repeat 0 nz) (repeat 0 nz)
        eventInfo0 false false false 0%Z 0%Z 0%Z 0%Z None false false [].

(** fmusim.c:66-75; [None]: the file cannot be written. *)
Definition open_result_file (resultFileName : option string)
  : option (option (list Row)) :=
  match resultFileName with
  | None => Some None
  | Some name =>
      if String.eqb name "-" then Some (Some [])
      else if fopen_ok name then Some (Some []) else None
  end.

(** fmusim.c:45-95: everything before the loop.  Either the function
    returns early, or the loop is entered with an end time and a state. *)
Definition prepare (tEnd : Q) (loggingOn : bool)
           (resultFileName : option string)
  : Result C + Q * Sim C :=
  match instantiateModel fmu loggingOn with
  | None => inl NoInstance
  | Some c =>
      let s := allocated c in
      if negb calloc_ok
      then inl (Returned (Error "out of memory") (fmuError "out of memory" s))
      else
        match open_result_file resultFileName with
        | None => inl (Returned Failure s)
        | Some f =>
            let s := with_simtime t0 (with_file f s) in
            let '(fmiFlag, c) := setTime fmu (comp s) t0 in
            let s := with_comp c s in
            if (fmiWarning <? fmiFlag)%Z
            then inl (Returned (Error "could not set time")
                               (fmuError "could not set time" s))
            else
              let '(fmiFlag, c, ev) := initialize fmu (comp s) false t0 in
              let s := with_eventInfo ev (with_comp c s) in
              let s := if (fmiWarning <? fmiFlag)%Z
                       then fmuError "could not initialize model" s else s in
              let tEnd := if terminateSimulation (eventInfo s)
                          then simtime s else tEnd in
              let s := output t0 false (output t0 true s) in
              inr (tEnd, s)
        end
  end.

(** fmusim.c:179-181 *)
Definition cleanup (s : Sim C) : Sim C :=
  let s := with_instanceFreed true s in
  match file s with
  | Some _ => with_fileClosed true s
  | None => s
  end.

(** [fmuSimulate], with at most [fuel] passes through its loop. *)
Definition fmuSimulate (fuel : nat) (tEnd h : Q) (loggingOn : bool)
           (separator : ascii) (resultFileName : option string)
  : option (Result C) :=
  match prepare tEnd loggingOn resultFileName with
  | inl r => Some r
  | inr (tEnd, s) =>
      match simulation_loop fuel tEnd h s with
      | None => None
      | Some (Abort msg s') => Some (Returned (Error msg) s')
      | Some (Next s') | Some (Break s') => Some (Returned Success (cleanup s'))
      end
  end.

End Simulator.

(** ** Frames *)

(** [keeps f p]: the statements [p] leave the variable [f] as it is,
    however they end. *)
Definition keeps {C A : Type} (f : Sim C -> A) (p : Sim C -> Outcome C) : Prop :=
  forall s, f (state (p s)) = f s.

(** [never_breaks p]: the statements [p] hold no [break]. *)
Definition never_breaks {C : Type} (p : Sim C -> Outcome C) : Prop :=
  forall s s', p s <> Break s'.

(** [passed o s']: the pass [o] went through the event handling and ended
    in [s'], at the end of the body or by [break]. *)
Definition passed {C : Type} (o : Outcome C) (s' : Sim C) : Prop :=
  o = Next s' \/ o = Break s'.

(** The variables that go together. *)
Definition clock {C : Type} (s : Sim C) : Q * Q * bool :=
  (simtime s, dt s, timeEvent s).

Definition indicators {C : Type} (s : Sim C) : list Q * list Q * bool :=
  (z s, prez s, stateEvent s).

Definition sink {C : Type} (s : Sim C) : option (list Row) * Z :=
  (file s, nSteps s).

Definition resources {C : Type} (s : Sim C) : bool * bool :=
  (instanceFreed s, fileClosed s).

Definition event_counters {C : Type} (s : Sim C) : Z * Z * Z :=
  (nTimeEvents s, nStateEvents s, nStepEvents s).

(** The rest of the loop body after [simtime] is advanced, and after the
    state event is checked. *)
Definition after_advance {C : Type} (fmiWarning : fmiStatus) (fmu : FMU C)
  : Sim C -> Outcome C :=
  fun s => perform_step fmiWarning fmu s
           >>= check_step_event fmiWarning fmu
           >>= check_state_event fmiWarning fmu
           >>= handle_events fmiWarning fmu
           >>= finish_step.

Definition after_check {C : Type} (fmiWarning : fmiStatus) (fmu : FMU C)
  : Sim C -> Outcome C :=
  fun s => handle_events fmiWarning fmu s >>= finish_step.

Definition before_check {C : Type} (fmiWarning : fmiStatus) (fmu : FMU C)
           (tEnd h : Q) : Sim C -> Outcome C :=
  fun s => get_state_and_derivatives fmiWarning fmu s
           >>= advance_simtime fmiWarning fmu tEnd h
           >>= perform_step fmiWarning fmu
           >>= check_step_event fmiWarning fmu.

Definition before_events {C : Type} (fmiWarning : fmiStatus) (fmu : FMU C)
           (tEnd h : Q) : Sim C -> Outcome C :=
  fun s => before_check fmiWarning fmu tEnd h s
           >>= check_state_event fmiWarning fmu.

Definition before_finish {C : Type} (fmiWarning : fmiStatus) (fmu : FMU C)
           (tEnd h : Q) : Sim C -> Outcome C :=
  fun s => before_events fmiWarning fmu tEnd h s
           >>= handle_events fmiWarning fmu.



(** ** Test doubles *)

(** A scripted FMU.  Its instance counts the calls of [setTime] and keeps
    the continuous states it was given; every derivative is 2. *)
Record Script : Type := mkScript {
  script_nx : nat;
  script_nz : nat;
  script_setTime : nat -> fmiStatus;      (* status of the k-th call *)
  script_getStates : fmiStatus;
  script_indicators : list Q;
  script_stepEvent : bool;
  script_initialize : fmiEventInfo;
  script_eventUpdate : fmiEventInfo
}.

Definition scripted (d : Script) : FMU (nat * list Q) :=
  mkFMU (mkModelDescription (script_nx d) (script_nz d))
        (fun _ => Some (O, repeat 0 (script_nx d)))
        (fun c _ => (script_setTime d (fst c), (S (fst c), snd c)))
        (fun c _ _ => (0%Z, c, script_initialize d))
        (fun c _ _ => (script_getStates d, c, snd c))
        (fun c _ n => (0%Z, c, repeat 2 n))
        (fun c x _ => (0%Z, (fst c, x)))
        (fun c => (0%Z, c, script_stepEvent d))
        (fun c _ _ => (0%Z, c, script_indicators d))
        (fun c _ _ => (0%Z, c, script_eventUpdate d)).

(** The status values of the test doubles. *)
Definition ok : fmiStatus := 0%Z.
Definition warning : fmiStatus := 1%Z.
Definition error : fmiStatus := 3%Z.

(** One state, one indicator that reads 1, no events. *)
Definition quiet : Script :=
  mkScript 1 1 (fun _ => ok) ok [1] false eventInfo0 eventInfo0.

(** [setTime] fails from its second call on: the call before the loop
    succeeds, the calls in the loop fail. *)
Definition setTime_fails : Script :=
  mkScript 1 1 (fun k => if (k <? 1)%nat then ok else error)
           ok [1] false eventInfo0 eventInfo0.

(** [getContinuousStates] fails. *)
Definition getStates_fails : Script :=
  mkScript 1 1 (fun _ => ok) error [1] false eventInfo0 eventInfo0.

(** Every step is a step event and the event update asks to terminate. *)
Definition terminating : Script :=
  mkScript 1 1 (fun _ => ok) ok [1] true eventInfo0
           (mkEventInfo false false true false 0).

(** The model announces, at initialization, a time event in the past
    and asks to terminate when the event is handled. *)
Definition stale_event : Script :=
  mkScript 1 1 (fun _ => ok) ok [1] false
           (mkEventInfo false false false true (-1))
           (mkEventInfo false false true false 0).

(** The model announces, at initialization, a time event at 1/4. *)
Definition timed : Script :=
  mkScript 1 1 (fun _ => ok) ok [1] false
           (mkEventInfo false false false true (1#4)) eventInfo0.

(** The loop of a scripted FMU as it is entered: the end time and the
    state after [prepare], with standard output as the result file. *)
Definition entry (d : Script) (tEnd : Q) : Q * Sim (nat * list Q) :=
  match prepare warning (scripted d) true (fun _ => true)
                tEnd false (Some "-"%string) with
  | inr p => p
  | inl _ => (tEnd, allocated (scripted d) (O, []))
  end.

(** How the loop of a scripted FMU ends within [fuel] passes. *)
Definition loop_end (d : Script) (fuel : nat) (tEnd h : Q)
  : Outcome (nat * list Q) :=
  match simulation_loop warning (scripted d) fuel
                        (fst (entry d tEnd)) h (snd (entry d tEnd)) with
  | Some o => o
  | None => Next (snd (entry d tEnd))
  end.

(** ** Invariants of the array loops *)

(** After [k] rounds the first [k] entries are updated, the others are
    still the old ones, and the length never changes. *)
Definition euler_inv (x0 xdot : list Q) (dt : Q) (k : nat) (x : list Q) : Prop :=
  length x = length x0 /\
  forall i, nth i x 0 =
            if (i <? k)%nat && (i <? length x0)%nat
            then nth i x0 0 + dt * nth i xdot 0
            else nth i x0 0.

(** Two arrays hold the same numbers. *)
Definition same_values (a b : list Q) : Prop :=
  length a = length b /\ forall i, nth i a 0 == nth i b 0.

Definition save_inv (prez0 z : list Q) (k : nat) (prez : list Q) : Prop :=
  length prez = length prez0 /\
  forall i, nth i prez 0 =
            if (i <? k)%nat && (i <? length prez0)%nat
            then nth i z 0 else nth i prez0 0.


(** ** Models that behave *)

(** No call of the loop body reports a status above [fmiWarning]. *)
Definition no_errors {C : Type} (fmiWarning : fmiStatus) (fmu : FMU C) : Prop :=
  (forall c x n, (fst (fst (getContinuousStates fmu c x n)) <= fmiWarning)%Z) /\
  (forall c x n, (fst (fst (getDerivatives fmu c x n)) <= fmiWarning)%Z) /\
  (forall c x n, (fst (setContinuousStates fmu c x n) <= fmiWarning)%Z) /\
  (forall c, (fst (fst (completedIntegratorStep fmu c)) <= fmiWarning)%Z) /\
  (forall c z n, (fst (fst (getEventIndicators fmu c z n)) <= fmiWarning)%Z) /\
  (forall c b ev, (fst (fst (eventUpdate fmu c b ev)) <= fmiWarning)%Z).

(** The event update never asks to terminate. *)
Definition never_asks_to_terminate {C : Type} (fmu : FMU C) : Prop :=
  forall c b ev, terminateSimulation (snd (eventUpdate fmu c b ev)) = false.

(** The event update never announces a time event. *)
Definition never_announces_time_event {C : Type} (fmu : FMU C) : Prop :=
  forall c b ev, upcomingTimeEvent (snd (eventUpdate fmu c b ev)) = false.

(** The messages of the six [return fmuError(...)] of the loop body. *)
Definition abort_messages : list string :=
  ["could not retrieve states"; "could not retrieve derivatives";
   "could not set states"; "could not complete intgrator step";
   "could not retrieve event indicators";
   "could not perform event update"]%string.

(** [never_aborts p]: the statements [p] hold no [return] that is taken. *)
Definition never_aborts {C : Type} (p : Sim C -> Outcome C) : Prop :=
  forall s msg s', p s <> Abort msg s'.

(** [reports p]: when the statements [p] return with an error, the
    message is one of [abort_messages] and is the last one reported. *)
Definition reports {C : Type} (p : Sim C -> Outcome C) : Prop :=
  forall s msg s',
    p s = Abort msg s' ->
    In msg abort_messages /\ exists pre, errlog s' = pre ++ [msg].

(** The times of the rows of values, in the order of writing. *)
Fixpoint row_times (rows : list Row) : list Q :=
  match rows with
  | [] => []
  | Header :: rest => row_times rest
  | Values t :: rest => t :: row_times rest
  end.

(** No number is followed by a smaller one. *)
Fixpoint ascending (l : list Q) : Prop :=
  match l with
  | a :: (b :: _) as rest => a <= b /\ ascending rest
  | _ => True
  end.

(** A scripted FMU that answers [fmiWarning] wherever the script allows. *)
Definition warns : Script :=
  mkScript 1 1 (fun _ => warning) warning [1] false eventInfo0 eventInfo0.

(** Every step is a step event; the event update changes nothing. *)
Definition stepping : Script :=
  mkScript 1 1 (fun _ => ok) ok [1] true eventInfo0 eventInfo0.

(** The model announces, at initialization, a time event at 3/10: with
    [h = 3/10] the event falls on the end of the first step. *)
Definition on_grid : Script :=
  mkScript 1 1 (fun _ => ok) ok [1] false
           (mkEventInfo false false false true (3#10)) eventInfo0.

(** An FMU with one state [x], of derivative 2, and the indicator
    [1 - x]: the indicator changes its sign when [x] passes 1. *)
Definition crossing : FMU (nat * list Q) :=
  mkFMU (mkModelDescription 1 1)
        (fun _ => Some (O, [0]))
        (fun c _ => (ok, (S (fst c), snd c)))
        (fun c _ _ => (ok, c, eventInfo0))
        (fun c _ _ => (ok, c, snd c))
        (fun c _ n => (ok, c, repeat 2 n))
        (fun c x _ => (ok, (fst c, x)))
        (fun c => (ok, c, false))
        (fun c _ _ => (ok, c, [1 - nth 0 (snd c) 0]))
        (fun c _ ev => (ok, c, ev)).

(** The second pass of the crossing model, [h = 3/10]: its start and end. *)
Definition crossing_entry : Sim (nat * list Q) :=
  match prepare warning crossing true (fun _ => true) 1 false None with
  | inr p => snd p
  | inl _ => allocated crossing (O, [])
  end.

Definition crossing_pass (n : nat) : Sim (nat * list Q) :=
  Nat.iter n (fun s => state (loop_body warning crossing 1 (3#10) s))
           crossing_entry.

(** The model asks to terminate at initialization. *)
Definition refuses : Script :=
  mkScript 1 1 (fun _ => ok) ok [1] false
           (mkEventInfo false false true false 0) eventInfo0.

(** An FMU like the quiet one whose [initialize] reports an error. *)
Definition failing_initialize : FMU (nat * list Q) :=
  mkFMU (mkModelDescription 1 1)
        (fun _ => Some (O, [0]))
        (fun c _ => (ok, (S (fst c), snd c)))
        (fun c _ _ => (error, c, eventInfo0))
        (fun c _ _ => (ok, c, snd c))
        (fun c _ n => (ok, c, repeat 2 n))
        (fun c x _ => (ok, (fst c, x)))
        (fun c => (ok, c, false))
        (fun c _ _ => (ok, c, [1]))
        (fun c _ ev => (ok, c, ev)).

(** The state of a scripted FMU after [n] passes to [tEnd = 1] with
    [h = 3/10]. *)
Definition pass_of (d : Script) (n : nat) : Sim (nat * list Q) :=
  Nat.iter n (fun s => state (loop_body warning (scripted d) 1 (3#10) s))
           (snd (entry d 1)).

(** The rows written to the result file so far. *)
Definition rows_of {C : Type} (s : Sim C) : list Row :=
  match file s with
  | Some rows => rows
  | None => []
  end.

(** ** The command line and [main] (main.c) *)

(** The values [main] passes on: the FMU file and the run's settings. *)
Record CommandLine : Type := mkCommandLine {
  arg_fmuFileName : string;
  arg_tEnd : Q;
  arg_h : Q;
  arg_loggingOn : Z;
  arg_separator : ascii;
  arg_resultFileName : option string   (* [None]: no output *)
}.

(** The complaints of [main] about its arguments; each is followed by
    [exit(EXIT_FAILURE)]. *)
Inductive ArgumentError : Type :=
| NoFmuFile
| EndTimeNotANumber
| StepSizeNotANumber
| LoggingNot0Or1
| SeparatorNotValid.

(** How the arguments are read: rejected, or accepted, with a warning
    when there are more than the six that are used. *)
Inductive Parsed : Type :=
| Rejected (e : ArgumentError)
| Accepted (a : CommandLine) (warned : bool).

(** The exit statuses of the program; [exit_1] is the [exit(1)] of
    [getTmpPath]. *)
Inductive ExitStatus : Type :=
| EXIT_SUCCESS
| EXIT_FAILURE
| exit_1.

Set Implicit Arguments.

(** How [main] ends: its exit status, what [fmuSimulate] returned if it
    was called, and the commands given to [system]. *)
Record MainEnd (C : Type) : Type := mkMainEnd {
  exit_status : ExitStatus;
  simulation : option (Result C);
  system_calls : list string
}.

Unset Implicit Arguments.

(** [fmu.modelDescription = md], the loaded functions left as they are. *)
Definition with_modelDescription {C : Type} (md : ModelDescription)
           (f : FMU C) : FMU C :=
  mkFMU md (instantiateModel f) (setTime f) (initialize f)
        (getContinuousStates f) (getDerivatives f) (setContinuousStates f)
        (completedIntegratorStep f) (getEventIndicators f) (eventUpdate f).

Section Main.
Context {C : Type}.
Variable fmiWarning : fmiStatus.

(** The library and the collaborators of [main], none of them part of
    the sources at hand.  [sscanf_lf str] is [Some v] when
    [sscanf(str, "%lf", &v)] returns 1, and [sscanf_d] likewise for
    ["%d"]; [strdup_ok] tells whether [getFmuPath] gets its copy of the
    file name; [mkdtemp] gives the directory made from the template. *)
Variable sscanf_lf : string -> option Q.
Variable sscanf_d : string -> option Z.
Variable strdup_ok : bool.
Variable mkdtemp : string -> option string.
Variable fmuUnzip : string -> string -> bool.
Variable parse : string -> option ModelDescription.
Variable getModelIdentifier : ModelDescription -> string.
Variable fmuLoadDll : string -> option (FMU C).
Variable calloc_ok : bool.
Variable fopen_ok : string -> bool.

(** [argv[i]], for [i < argc]. *)
Definition arg (argv : list string) (i : nat) : string :=
  nth i argv ""%string.

(** main.c:114-163, with [argc = length argv]. *)
Definition parse_arguments (argv : list string) : Parsed :=
  let argc := length argv in
  if negb (1 <? argc)%nat then Rejected NoFmuFile else
  let fmuFileName := arg argv 1 in
  match (if (2 <? argc)%nat then sscanf_lf (arg argv 2) else Some 1) with
  | None => Rejected EndTimeNotANumber
  | Some tEnd =>
  match (if (3 <? argc)%nat then sscanf_lf (arg argv 3) else Some (1#10)) with
  | None => Rejected StepSizeNotANumber
  | Some h =>
  match (if (4 <? argc)%nat
         then match sscanf_d (arg argv 4) with
              | Some l => if (l <? 0)%Z || (1 <? l)%Z then None else Some l
              | None => None
              end
         else Some 0%Z) with
  | None => Rejected LoggingNot0Or1
  | Some loggingOn =>
  match (if (5 <? argc)%nat
         then match arg argv 5 with
              | String c EmptyString => Some c
              | _ => None
              end
         else Some ";"%char) with
  | None => Rejected SeparatorNotValid
  | Some csv_separator =>
  let resultFileName :=
    if (6 <? argc)%nat
    then (if (String.length (arg argv 6) =? 0)%nat
          then None else Some (arg argv 6))
    else Some "-"%string in
  Accepted (mkCommandLine fmuFileName tEnd h loggingOn csv_separator
                        resultFileName)
           (7 <? argc)%nat
  end end end end.

(** main.c:106-220, in the branch for systems other than Windows, with at
    most [fuel] passes through the loop of [fmuSimulate]. *)
Definition main (fuel : nat) (argv : list string) : option (MainEnd C) :=
  match parse_arguments argv with
  | Rejected _ => Some (mkMainEnd EXIT_FAILURE None [])
  | Accepted a _ =>
      if negb strdup_ok then Some (mkMainEnd EXIT_FAILURE None []) else
      match mkdtemp "fmuTmpXXXXXX" with
      | None => Some (mkMainEnd exit_1 None [])
      | Some dir =>
          let tmpPath := (dir ++ "/")%string in
          if negb (fmuUnzip (arg_fmuFileName a) tmpPath)
          then Some (mkMainEnd EXIT_FAILURE None []) else
          match parse (tmpPath ++ "modelDescription.xml")%string with
          | None => Some (mkMainEnd EXIT_FAILURE None [])
          | Some md =>
              match fmuLoadDll (tmpPath ++ "binaries/linux32/"
                                ++ getModelIdentifier md ++ ".so")%string with
              | None => Some (mkMainEnd EXIT_FAILURE None [])
              | Some loaded =>
                  let fmu := with_modelDescription md loaded in
                  match fmuSimulate fmiWarning fmu calloc_ok fopen_ok fuel
                                    (arg_tEnd a) (arg_h a)
                                    (negb (arg_loggingOn a =? 0)%Z)
                                    (arg_separator a)
                                    (arg_resultFileName a) with
                  | None => None
                  | Some r =>
                      Some (mkMainEnd EXIT_SUCCESS (Some r)
                                      [("rm -rf " ++ tmpPath)%string])
                  end
              end
          end
      end
  end.

End Main.

(** A library for the test runs of [main]: numbers are read from a few
    spellings, every collaborator succeeds and loads the given FMU. *)
Definition read_lf (str : string) : option Q :=
  if String.eqb str "1" then Some 1
  else if String.eqb str "0.3" then Some (3#10)
  else if String.eqb str "0" then Some 0
  else None.

Definition read_d (str : string) : option Z :=
  if String.eqb str "0" then Some 0%Z
  else if String.eqb str "1" then Some 1%Z
  else if String.eqb str "2" then Some 2%Z
  else None.

Definition test_main (d : Script) (fuel : nat) (argv : list string)
  : option (MainEnd (nat * list Q)) :=
  main warning read_lf read_d true (fun _ => Some "fmuTmp123456"%string)
       (fun _ _ => true) (fun _ => Some (mkModelDescription 1 1))
       (fun _ => "model"%string) (fun _ => Some (scripted d))
       true (fun _ => true) fuel argv.

(** * Properties *)

(** ** Numbers *)

Lemma Qltb_lt (a b : Q) : Qltb a b = true <-> a < b.
Proof.
  unfold Qltb. rewrite negb_true_iff.
  split; intros H.
  - apply Qnot_le_lt. intros Hle.
    apply Qle_bool_iff in Hle. congruence.
  - destruct (Qle_bool b a) eqn:E; [|reflexivity].
    apply Qle_bool_iff in E. lra.
Qed.

Lemma Qltb_ge (a b : Q) : Qltb a b = false <-> b <= a.
Proof.
  unfold Qltb. rewrite negb_false_iff. apply Qle_bool_iff.
Qed.

Lemma min_le_r (a b : Q) : min a b <= b.
Proof.
  unfold min. destruct (Qltb b a) eqn:E.
  - lra.
  - apply Qltb_ge in E. exact E.
Qed.

Lemma min_le_l (a b : Q) : min a b <= a.
Proof.
  unfold min. destruct (Qltb b a) eqn:E.
  - apply Qltb_lt in E. lra.
  - lra.
Qed.

Lemma min_glb (a b c : Q) : c <= a -> c <= b -> c <= min a b.
Proof.
  intros Ha Hb. unfold min. destruct (Qltb b a); assumption.
Qed.

(** ** Arrays and [for] loops *)

(** *** Facts about [store] *)

Lemma store_length (i : nat) (v : Q) (l : list Q) :
  length (store i v l) = length l.
Proof.
  revert i. induction l as [|a t IH]; intros [|j]; simpl; auto.
Qed.

Lemma nth_store_same (i : nat) (v : Q) (l : list Q) :
  (i < length l)%nat -> nth i (store i v l) 0 = v.
Proof.
  revert i. induction l as [|a t IH]; intros [|j] H; simpl in *; try lia.
  - reflexivity.
  - apply IH. lia.
Qed.

Lemma nth_store_other (i j : nat) (v : Q) (l : list Q) :
  i <> j -> nth j (store i v l) 0 = nth j l 0.
Proof.
  revert i j. induction l as [|a t IH]; intros [|i] [|j] H; simpl; auto.
  congruence.
Qed.

(** *** A loop invariant rule for [for_from] *)

Lemma for_from_invariant {A : Type} (P : nat -> A -> Prop)
      (body : nat -> A -> A) (n start : nat) (a : A) :
  P start a ->
  (forall i b, (start <= i < start + n)%nat -> P i b -> P (S i) (body i b)) ->
  P (start + n)%nat (for_from start n body a).
Proof.
  revert start a. induction n as [|m IH]; intros start a H0 Hstep; simpl.
  - rewrite Nat.add_0_r. exact H0.
  - replace (start + S m)%nat with (S start + m)%nat by lia.
    apply IH.
    + apply Hstep; [lia | exact H0].
    + intros i b Hi. apply Hstep. lia.
Qed.

Lemma for_loop_invariant {A : Type} (P : nat -> A -> Prop)
      (body : nat -> A -> A) (n : nat) (a : A) :
  P O a ->
  (forall i b, (i < n)%nat -> P i b -> P (S i) (body i b)) ->
  P n (for_loop n body a).
Proof.
  intros H0 Hstep. unfold for_loop.
  apply (for_from_invariant P body n 0 a H0).
  intros i b Hi. apply Hstep. lia.
Qed.

(** *** The Euler loop *)

Lemma euler_spec (nx : nat) (x xdot : list Q) (dt : Q) :
  euler_inv x xdot dt nx (euler nx x xdot dt).
Proof.
  unfold euler.
  apply (for_loop_invariant (euler_inv x xdot dt)).
  - split; [reflexivity|]. intros i. reflexivity.
  - intros k b Hk [Hlen Hnth]. split.
    + rewrite store_length. exact Hlen.
    + intros i. destruct (Nat.eq_dec k i) as [->|Hne].
      * destruct (Nat.ltb_spec i (length x)) as [Hin|Hout].
        -- rewrite nth_store_same by lia.
           rewrite Hnth. rewrite Nat.ltb_irrefl. simpl.
           replace (i <? S i)%nat with true
             by (symmetry; apply Nat.ltb_lt; lia).
           reflexivity.
        -- rewrite andb_false_r.
           rewrite (nth_overflow (store i _ b))
             by (rewrite store_length; lia).
           rewrite nth_overflow by lia. reflexivity.
      * rewrite nth_store_other by exact Hne.
        rewrite Hnth.
        replace (i <? S k)%nat with (i <? k)%nat; [reflexivity|].
        destruct (Nat.ltb_spec i k), (Nat.ltb_spec i (S k)); try reflexivity; lia.
Qed.

Lemma euler_length (nx : nat) (x xdot : list Q) (dt : Q) :
  length (euler nx x xdot dt) = length x.
Proof. exact (proj1 (euler_spec nx x xdot dt)). Qed.

Lemma euler_nth (nx : nat) (x xdot : list Q) (dt : Q) (i : nat) :
  (i < nx)%nat -> (i < length x)%nat ->
  nth i (euler nx x xdot dt) 0 = nth i x 0 + dt * nth i xdot 0.
Proof.
  intros Hi Hl. rewrite (proj2 (euler_spec nx x xdot dt)).
  replace (i <? nx)%nat with true by (symmetry; apply Nat.ltb_lt; exact Hi).
  replace (i <? length x)%nat with true by (symmetry; apply Nat.ltb_lt; exact Hl).
  reflexivity.
Qed.

Lemma euler_dt_zero (nx : nat) (x xdot : list Q) :
  same_values (euler nx x xdot 0) x.
Proof.
  destruct (euler_spec nx x xdot 0) as [Hlen Hnth].
  split; [exact Hlen|].
  intros i. rewrite Hnth.
  destruct ((i <? nx)%nat && (i <? length x)%nat); lra.
Qed.

(** *** Saving the indicators *)

Lemma save_indicators_spec (nz : nat) (prez z : list Q) :
  save_inv prez z nz (save_indicators nz prez z).
Proof.
  unfold save_indicators.
  apply (for_loop_invariant (save_inv prez z)).
  - split; [reflexivity|]. intros i. reflexivity.
  - intros k b Hk [Hlen Hnth]. split.
    + rewrite store_length. exact Hlen.
    + intros i. destruct (Nat.eq_dec k i) as [->|Hne].
      * destruct (Nat.ltb_spec i (length prez)) as [Hin|Hout].
        -- rewrite nth_store_same by lia.
           replace (i <? S i)%nat with true
             by (symmetry; apply Nat.ltb_lt; lia).
           reflexivity.
        -- rewrite andb_false_r.
           rewrite (nth_overflow (store i _ b))
             by (rewrite store_length; lia).
           rewrite nth_overflow by lia. reflexivity.
      * rewrite nth_store_other by exact Hne.
        rewrite Hnth.
        replace (i <? S k)%nat with (i <? k)%nat; [reflexivity|].
        destruct (Nat.ltb_spec i k), (Nat.ltb_spec i (S k)); try reflexivity; lia.
Qed.

Lemma nth_ext_0 (a b : list Q) :
  length a = length b -> (forall i, nth i a 0 = nth i b 0) -> a = b.
Proof.
  intros Hlen Hnth. apply (nth_ext a b 0 0 Hlen). intros i _. apply Hnth.
Qed.

(** When both arrays have [nz] entries the copy is complete. *)
Lemma save_indicators_copy (nz : nat) (prez z : list Q) :
  length prez = nz -> length z = nz -> save_indicators nz prez z = z.
Proof.
  intros Hp Hz.
  destruct (save_indicators_spec nz prez z) as [Hlen Hnth].
  apply nth_ext_0; [lia|].
  intros i. rewrite Hnth. rewrite Hp.
  rewrite andb_diag.
  destruct (Nat.ltb_spec i nz) as [Hi|Hi]; [reflexivity|].
  rewrite !nth_overflow by lia. reflexivity.
Qed.

(** *** Detecting a state event *)

Lemma detectStateEvent_spec (nz : nat) (prez z : list Q) :
  detectStateEvent nz prez z = true <->
  exists i, (i < nz)%nat /\ nth i prez 0 * nth i z 0 < 0.
Proof.
  unfold detectStateEvent.
  apply (for_loop_invariant
           (fun k (b : bool) =>
              b = true <->
              exists i, (i < k)%nat /\ nth i prez 0 * nth i z 0 < 0)).
  - split; [discriminate|]. intros (i & Hi & _). lia.
  - intros k b Hk IH. rewrite orb_true_iff, IH, Qltb_lt. split.
    + intros [(i & Hi & Hneg)|Hneg].
      * exists i. split; [lia | exact Hneg].
      * exists k. split; [lia | exact Hneg].
    + intros (i & Hi & Hneg).
      destruct (Nat.eq_dec i k) as [->|Hne].
      * right. exact Hneg.
      * left. exists i. split; [lia | exact Hneg].
Qed.

Lemma detectStateEvent_false (nz : nat) (prez z : list Q) :
  (forall i, (i < nz)%nat -> 0 <= nth i prez 0 * nth i z 0) ->
  detectStateEvent nz prez z = false.
Proof.
  intros H. apply not_true_is_false. intros Hd.
  apply detectStateEvent_spec in Hd. destruct Hd as (i & Hi & Hneg).
  specialize (H i Hi). lra.
Qed.

Lemma nth_repeat_0 (n i : nat) : nth i (repeat 0 n) 0 = 0.
Proof.
  revert i. induction n as [|n IH]; intros [|i]; simpl; auto.
Qed.

Lemma detectStateEvent_zero_prez (nz : nat) (z : list Q) :
  detectStateEvent nz (repeat 0 nz) z = false.
Proof.
  apply detectStateEvent_false. intros i _.
  rewrite nth_repeat_0. lra.
Qed.

(** ** Sequencing *)

Section Properties.
Context {C : Type}.
Variable fmiWarning : fmiStatus.
Variable fmu : FMU C.
Variable calloc_ok : bool.
Variable fopen_ok : string -> bool.

Lemma bind_Next (o : Outcome C) (k : Sim C -> Outcome C) (s' : Sim C) :
  o >>= k = Next s' <-> exists s1, o = Next s1 /\ k s1 = Next s'.
Proof.
  destruct o as [s1|s1|m s1]; simpl; split.
  - intros H. exists s1. split; [reflexivity | exact H].
  - intros (s2 & Heq & H). inversion Heq. subst. exact H.
  - discriminate.
  - intros (s2 & Heq & _). discriminate.
  - discriminate.
  - intros (s2 & Heq & _). discriminate.
Qed.

Lemma bind_cases (o : Outcome C) (k : Sim C -> Outcome C) :
  (exists s1, o = Next s1 /\ o >>= k = k s1) \/
  ((forall s1, o <> Next s1) /\ o >>= k = o).
Proof.
  destruct o as [s1|s1|m s1]; simpl.
  - left. exists s1. split; reflexivity.
  - right. split; [discriminate | reflexivity].
  - right. split; [discriminate | reflexivity].
Qed.

Lemma keeps_bind {A : Type} (f : Sim C -> A) (p q : Sim C -> Outcome C) :
  keeps f p -> keeps f q -> keeps f (fun s => p s >>= q).
Proof.
  intros Hp Hq s. specialize (Hp s).
  destruct (p s) as [s1|s1|m s1]; simpl in *.
  - rewrite Hq. exact Hp.
  - exact Hp.
  - exact Hp.
Qed.

(** The statements of the loop body, unfolded up to the calls of the FMU. *)
Ltac unfold_phases :=
  unfold get_state_and_derivatives, advance_simtime, perform_step,
    check_step_event, check_state_event, handle_events, finish_step,
    count_events, output, check, fmuError, next_time.

(** Case analysis on every call and test met on the way. *)
Ltac split_cases :=
  repeat
    (cbn [bind state];
     match goal with
     | |- context [match ?e with _ => _ end] => destruct e eqn:?
     end).

(** A group of variables is kept by a sequence of statements when each
    statement keeps it. *)
Ltac frame :=
  unfold loop_body, before_finish, before_events, before_check,
    after_advance, after_check;
  repeat apply keeps_bind;
  intros ?; unfold_phases; split_cases; reflexivity.

Lemma bind_assoc (o : Outcome C) (k k' : Sim C -> Outcome C) :
  o >>= k >>= k' = o >>= (fun s => k s >>= k').
Proof. destruct o; reflexivity. Qed.

Lemma loop_body_advance (tEnd h : Q) (s : Sim C) :
  loop_body fmiWarning fmu tEnd h s =
  get_state_and_derivatives fmiWarning fmu s
  >>= (fun s1 => advance_simtime fmiWarning fmu tEnd h s1
                 >>= after_advance fmiWarning fmu).
Proof.
  unfold loop_body, after_advance.
  destruct (get_state_and_derivatives fmiWarning fmu s) as [s1|s1|m s1];
    [|reflexivity|reflexivity].
  cbn [bind].
  destruct (advance_simtime fmiWarning fmu tEnd h s1); reflexivity.
Qed.

Lemma loop_body_check (tEnd h : Q) (s : Sim C) :
  loop_body fmiWarning fmu tEnd h s =
  before_check fmiWarning fmu tEnd h s
  >>= (fun s1 => check_state_event fmiWarning fmu s1
                 >>= after_check fmiWarning fmu).
Proof.
  unfold loop_body, before_check, after_check.
  rewrite !bind_assoc. reflexivity.
Qed.

(** *** What each group of statements leaves alone *)

Lemma get_keeps_clock :
  keeps clock (get_state_and_derivatives fmiWarning fmu).
Proof. frame. Qed.

Lemma get_keeps_eventInfo :
  keeps (@eventInfo C) (get_state_and_derivatives fmiWarning fmu).
Proof. frame. Qed.

Lemma after_advance_keeps_clock :
  keeps clock (after_advance fmiWarning fmu).
Proof. frame. Qed.

Lemma before_check_keeps_indicators (tEnd h : Q) :
  keeps indicators (before_check fmiWarning fmu tEnd h).
Proof. frame. Qed.

Lemma after_check_keeps_indicators :
  keeps indicators (after_check fmiWarning fmu).
Proof. frame. Qed.

Lemma loop_body_keeps_resources (tEnd h : Q) :
  keeps resources (loop_body fmiWarning fmu tEnd h).
Proof. frame. Qed.

Lemma before_events_keeps_counters (tEnd h : Q) :
  keeps event_counters (before_events fmiWarning fmu tEnd h).
Proof. frame. Qed.

Lemma before_finish_keeps_sink (tEnd h : Q) :
  keeps sink (before_finish fmiWarning fmu tEnd h).
Proof. frame. Qed.

Lemma finish_keeps_counters : keeps event_counters (@finish_step C).
Proof. frame. Qed.

Lemma finish_keeps_clock : keeps clock (@finish_step C).
Proof. frame. Qed.

Lemma handle_keeps_clock : keeps clock (handle_events fmiWarning fmu).
Proof. frame. Qed.

Lemma handle_keeps_indicators :
  keeps indicators (handle_events fmiWarning fmu).
Proof. frame. Qed.

Lemma loop_body_finish (tEnd h : Q) (s : Sim C) :
  loop_body fmiWarning fmu tEnd h s =
  before_finish fmiWarning fmu tEnd h s >>= finish_step.
Proof. reflexivity. Qed.

Lemma loop_body_events (tEnd h : Q) (s : Sim C) :
  loop_body fmiWarning fmu tEnd h s =
  before_events fmiWarning fmu tEnd h s
  >>= (fun s1 => handle_events fmiWarning fmu s1 >>= finish_step).
Proof.
  unfold loop_body, before_events, before_check.
  rewrite !bind_assoc. reflexivity.
Qed.

(** *** What each group of statements does *)

(** Advancing the time never leaves the loop body, whatever [setTime]
    answers. *)
Lemma advance_simtime_Next (tEnd h : Q) (s : Sim C) :
  exists s', advance_simtime fmiWarning fmu tEnd h s = Next s' /\
             clock s' = next_time tEnd h (eventInfo s) (simtime s).
Proof.
  unfold advance_simtime.
  destruct (next_time tEnd h (eventInfo s) (simtime s)) as [[t d] e].
  cbn [comp with_dt with_timeEvent with_simtime simtime].
  destruct (setTime fmu (comp s) t) as [fmiFlag c].
  eexists. split; [reflexivity|].
  destruct (fmiWarning <? fmiFlag)%Z; reflexivity.
Qed.

(** The clock after a pass: advanced as [next_time] says, unless the pass
    was aborted before. *)
Lemma loop_body_clock (tEnd h : Q) (s : Sim C) :
  (clock (state (loop_body fmiWarning fmu tEnd h s)) = clock s /\
   exists msg s', loop_body fmiWarning fmu tEnd h s = Abort msg s') \/
  clock (state (loop_body fmiWarning fmu tEnd h s)) =
  next_time tEnd h (eventInfo s) (simtime s).
Proof.
  rewrite loop_body_advance.
  pose proof (get_keeps_clock s) as Hc.
  pose proof (get_keeps_eventInfo s) as He.
  destruct (get_state_and_derivatives fmiWarning fmu s) as [s1|s1|m s1] eqn:E;
    cbn [bind state] in *.
  - right.
    destruct (advance_simtime_Next tEnd h s1) as (s2 & -> & Hs2).
    cbn [bind]. rewrite after_advance_keeps_clock, Hs2, He.
    unfold clock in Hc. congruence.
  - exfalso. revert E. unfold_phases. split_cases; discriminate.
  - left. split; [exact Hc|]. exists m, s1. reflexivity.
Qed.

Lemma loop_body_passed_clock (tEnd h : Q) (s s' : Sim C) :
  loop_body fmiWarning fmu tEnd h s = Next s' \/
  loop_body fmiWarning fmu tEnd h s = Break s' ->
  clock s' = next_time tEnd h (eventInfo s) (simtime s).
Proof.
  intros H.
  destruct (loop_body_clock tEnd h s) as [(_ & m & s1 & Ha)|Hc].
  - destruct H as [H|H]; congruence.
  - destruct H as [H|H]; rewrite H in Hc; exact Hc.
Qed.

Lemma finish_step_Next (s : Sim C) :
  exists s', finish_step s = Next s' /\
             simtime s' = simtime s /\
             file s' = option_map (outputRow (simtime s) false) (file s) /\
             nSteps s' = (nSteps s + 1)%Z.
Proof.
  unfold finish_step, output. eexists. split; [reflexivity|].
  destruct (file s) eqn:Ef; cbn; rewrite ?Ef; repeat split; reflexivity.
Qed.

(** A complete pass writes one row, stamped with the new time, and counts
    one step. *)
Lemma loop_body_Next_sink (tEnd h : Q) (s s' : Sim C) :
  loop_body fmiWarning fmu tEnd h s = Next s' ->
  file s' = option_map (outputRow (simtime s') false) (file s) /\
  nSteps s' = (nSteps s + 1)%Z.
Proof.
  rewrite loop_body_finish. intros H.
  apply bind_Next in H. destruct H as (s1 & H1 & H2).
  pose proof (before_finish_keeps_sink tEnd h s) as Hk.
  rewrite H1 in Hk. cbn [state] in Hk. unfold sink in Hk.
  destruct (finish_step_Next s1) as (s2 & E & Ht & Hf & Hn).
  assert (s2 = s') by congruence. subst s2.
  injection Hk as Hfile Hsteps.
  rewrite Hf, Hn, Ht, Hfile, Hsteps. split; reflexivity.
Qed.

(** A pass that is left by [break] or [return] writes no row and counts
    no step. *)
Lemma loop_body_left_sink (tEnd h : Q) (s : Sim C) :
  (forall s', loop_body fmiWarning fmu tEnd h s <> Next s') ->
  sink (state (loop_body fmiWarning fmu tEnd h s)) = sink s.
Proof.
  rewrite loop_body_finish. intros H.
  pose proof (before_finish_keeps_sink tEnd h s) as Hk.
  destruct (before_finish fmiWarning fmu tEnd h s) as [s1|s1|m s1];
    cbn [bind state] in *; try exact Hk.
  destruct (finish_step_Next s1) as (s2 & E & _).
  exfalso. exact (H s2 E).
Qed.

(** The events of a pass are counted where they are handled. *)
Lemma handle_events_counters (s : Sim C) :
  event_counters (state (handle_events fmiWarning fmu s)) =
  ((nTimeEvents s + Z.b2z (timeEvent s))%Z,
   (nStateEvents s + Z.b2z (stateEvent s))%Z,
   (nStepEvents s + Z.b2z (stepEvent s))%Z).
Proof.
  unfold handle_events, count_events, check, fmuError, event_counters.
  destruct s as [c t d x xd z pz ev te se pe nS nT nP nE f fc fr log].
  destruct te, se, pe; cbn; split_cases; cbn;
    rewrite ?Z.add_0_r; reflexivity.
Qed.

(** *** Passes that reach the event handling *)

Lemma never_breaks_bind (p q : Sim C -> Outcome C) :
  never_breaks p -> never_breaks q -> never_breaks (fun s => p s >>= q).
Proof.
  intros Hp Hq s s' H.
  destruct (p s) as [s1|s1|m s1] eqn:E; cbn [bind] in H.
  - exact (Hq s1 s' H).
  - exact (Hp s s1 E).
  - discriminate.
Qed.

Lemma before_events_never_breaks (tEnd h : Q) :
  never_breaks (before_events fmiWarning fmu tEnd h).
Proof.
  unfold before_events, before_check.
  repeat apply never_breaks_bind;
    intros ? ?; unfold_phases; split_cases; discriminate.
Qed.

(** A pass that ends in [Next] or [Break] went through the check for
    state events and then through the event handling. *)
Lemma loop_body_passed (tEnd h : Q) (s s' : Sim C) :
  loop_body fmiWarning fmu tEnd h s = Next s' \/
  loop_body fmiWarning fmu tEnd h s = Break s' ->
  exists s1,
    before_events fmiWarning fmu tEnd h s = Next s1 /\
    ((exists s2, handle_events fmiWarning fmu s1 = Next s2 /\
                 finish_step s2 = Next s' /\
                 loop_body fmiWarning fmu tEnd h s = Next s') \/
     (handle_events fmiWarning fmu s1 = Break s' /\
      loop_body fmiWarning fmu tEnd h s = Break s')).
Proof.
  rewrite loop_body_events.
  destruct (before_events fmiWarning fmu tEnd h s) as [s1|s1|m s1] eqn:E;
    cbn [bind].
  - intros H. exists s1. split; [reflexivity|].
    destruct (handle_events fmiWarning fmu s1) as [s2|s2|m s2] eqn:E2;
      cbn [bind] in *.
    + destruct (finish_step_Next s2) as (s3 & E3 & _).
      left. exists s2. rewrite E3 in H.
      destruct H as [H|H]; [|discriminate].
      rewrite E3. split; [reflexivity|]. split; exact H.
    + right. destruct H as [H|H]; [discriminate|].
      split; exact H.
    + destruct H; discriminate.
  - exfalso. exact (before_events_never_breaks tEnd h s s1 E).
  - intros [H|H]; discriminate.
Qed.

Lemma handle_keeps_stepEvent :
  keeps (@stepEvent C) (handle_events fmiWarning fmu).
Proof. frame. Qed.

Lemma finish_keeps_stepEvent : keeps (@stepEvent C) (@finish_step C).
Proof. frame. Qed.

Lemma finish_keeps_indicators : keeps indicators (@finish_step C).
Proof. frame. Qed.

(** After such a pass each event of the pass is counted once. *)
Lemma loop_body_passed_counters (tEnd h : Q) (s s' : Sim C) :
  loop_body fmiWarning fmu tEnd h s = Next s' \/
  loop_body fmiWarning fmu tEnd h s = Break s' ->
  event_counters s' =
  ((nTimeEvents s + Z.b2z (timeEvent s'))%Z,
   (nStateEvents s + Z.b2z (stateEvent s'))%Z,
   (nStepEvents s + Z.b2z (stepEvent s'))%Z).
Proof.
  intros H. apply loop_body_passed in H.
  destruct H as (s1 & E1 & H).
  pose proof (before_events_keeps_counters tEnd h s) as Hc.
  rewrite E1 in Hc. cbn [state] in Hc.
  pose proof (handle_events_counters s1) as Hh.
  pose proof (handle_keeps_clock s1) as Hk.
  pose proof (handle_keeps_indicators s1) as Hi.
  pose proof (handle_keeps_stepEvent s1) as Hp.
  unfold event_counters, clock, indicators in *.
  destruct H as [(s2 & E2 & E3 & _)|(E2 & _)];
    rewrite E2 in Hh, Hk, Hi, Hp; cbn [state] in *.
  - pose proof (finish_keeps_counters s2) as Fc.
    pose proof (finish_keeps_clock s2) as Fk.
    pose proof (finish_keeps_indicators s2) as Fi.
    pose proof (finish_keeps_stepEvent s2) as Fp.
    rewrite E3 in Fc, Fk, Fi, Fp. cbn [state] in *.
    unfold event_counters, clock, indicators in *.
    congruence.
  - congruence.
Qed.

(** The check for state events: the indicators of the pass before are
    saved, new ones are sampled, and the two are compared. *)
Lemma check_state_event_Next (s s' : Sim C) :
  check_state_event fmiWarning fmu s = Next s' ->
  prez s' = save_indicators (nz fmu) (prez s) (z s) /\
  (exists fmiFlag c,
      getEventIndicators fmu (comp s) (z s) (nz fmu) = (fmiFlag, c, z s')) /\
  stateEvent s' = detectStateEvent (nz fmu) (prez s') (z s').
Proof.
  unfold check_state_event, check.
  cbn [comp z with_prez].
  destruct (getEventIndicators fmu (comp s) (z s) (nz fmu))
    as [[fmiFlag c] z'].
  destruct (fmiWarning <? fmiFlag)%Z; cbn [bind]; [discriminate|].
  intros H. injection H as <-. cbn.
  split; [reflexivity|]. split; [|reflexivity].
  exists fmiFlag, c. reflexivity.
Qed.

(** *** Before the loop *)

(** The state in which the loop is entered. *)
Lemma prepare_entry (tEnd : Q) (loggingOn : bool) (name : option string)
      (tEnd' : Q) (s0 : Sim C) :
  prepare fmiWarning fmu calloc_ok fopen_ok tEnd loggingOn name
  = inr (tEnd', s0) ->
  simtime s0 = t0 /\
  (tEnd' = tEnd \/ tEnd' = t0) /\
  z s0 = repeat 0 (nz fmu) /\ prez s0 = repeat 0 (nz fmu) /\
  resources s0 = (false, false) /\
  nSteps s0 = 0%Z /\ event_counters s0 = (0%Z, 0%Z, 0%Z) /\
  (file s0 = None \/ file s0 = Some [Header; Values t0]).
Proof.
  unfold prepare, output, fmuError, allocated.
  destruct (instantiateModel fmu loggingOn) as [c|]; [|discriminate].
  destruct (negb calloc_ok); [discriminate|].
  destruct (open_result_file fopen_ok name) as [f|] eqn:Ef; [|discriminate].
  assert (Hf : f = None \/ f = Some []).
  { revert Ef. unfold open_result_file.
    destruct name as [n|]; [|intros [= <-]; left; reflexivity].
    destruct (String.eqb n "-"); [intros [= <-]; right; reflexivity|].
    destruct (fopen_ok n); [intros [= <-]; right; reflexivity|discriminate]. }
  cbn [comp with_simtime with_file].
  destruct (setTime fmu c t0) as [fmiFlag c1].
  destruct (fmiWarning <? fmiFlag)%Z; [discriminate|].
  cbn [comp with_comp].
  destruct (initialize fmu c1 false t0) as [[fmiFlag2 c2] ev].
  destruct Hf as [-> | ->];
    destruct (fmiWarning <? fmiFlag2)%Z; cbn;
    destruct (terminateSimulation ev); intros [= <- <-]; cbn;
    repeat split; auto.
Qed.

(** *** The loop and its test *)

Lemma at_loop_test_cons (tEnd h : Q) (s s1 s2 : Sim C) (n : nat) :
  Qltb (simtime s) tEnd = true ->
  loop_body fmiWarning fmu tEnd h s = Next s1 ->
  at_loop_test fmiWarning fmu tEnd h s1 n s2 ->
  at_loop_test fmiWarning fmu tEnd h s (S n) s2.
Proof.
  intros Hg Hb Hr. induction Hr as [|n s2 s3 Hr IH Hg2 Hb2].
  - apply (at_next _ _ _ _ _ O s s1); [apply at_entry | exact Hg | exact Hb].
  - apply (at_next _ _ _ _ _ (S n) s2 s3); assumption.
Qed.

(** However the loop ends, it ends from a state at its test: by the test,
    or by a pass that does not reach the end of the body. *)
Lemma simulation_loop_ends (fuel : nat) (tEnd h : Q) (s : Sim C)
      (o : Outcome C) :
  simulation_loop fmiWarning fmu fuel tEnd h s = Some o ->
  exists n s1,
    at_loop_test fmiWarning fmu tEnd h s n s1 /\
    ((o = Next s1 /\ Qltb (simtime s1) tEnd = false) \/
     (Qltb (simtime s1) tEnd = true /\
      loop_body fmiWarning fmu tEnd h s1 = o /\
      forall s', o <> Next s')).
Proof.
  revert s. induction fuel as [|fuel IH]; intros s; cbn [simulation_loop];
    destruct (Qltb (simtime s) tEnd) eqn:Hg.
  - discriminate.
  - intros [= <-]. exists O, s. split; [apply at_entry|]. left. auto.
  - destruct (loop_body fmiWarning fmu tEnd h s) as [s1|s1|m s1] eqn:Hb.
    + intros H. destruct (IH s1 H) as (n & s2 & Hr & Hend).
      exists (S n), s2. split; [|exact Hend].
      apply (at_loop_test_cons tEnd h s s1 s2 n Hg Hb Hr).
    + intros [= <-]. exists O, s. split; [apply at_entry|]. right.
      split; [exact Hg|]. split; [exact Hb|]. discriminate.
    + intros [= <-]. exists O, s. split; [apply at_entry|]. right.
      split; [exact Hg|]. split; [exact Hb|]. discriminate.
  - intros [= <-]. exists O, s. split; [apply at_entry|]. left. auto.
Qed.

(** With enough fuel the loop gets as far as its passes go. *)
Lemma simulation_loop_at_test (tEnd h : Q) (s s1 : Sim C) (n : nat) :
  at_loop_test fmiWarning fmu tEnd h s n s1 ->
  forall fuel,
    simulation_loop fmiWarning fmu (n + fuel) tEnd h s
    = simulation_loop fmiWarning fmu fuel tEnd h s1.
Proof.
  intros Hr. induction Hr as [|n s1 s2 Hr IH Hg Hb]; intros fuel.
  - reflexivity.
  - replace (S n + fuel)%nat with (n + S fuel)%nat by lia.
    rewrite IH. cbn [simulation_loop]. rewrite Hg, Hb. reflexivity.
Qed.

(** *** The indicators in a pass *)

(** The state events counted by a pass, however it ends: none, unless
    the check found one. *)
Lemma loop_body_nStateEvents (tEnd h : Q) (s : Sim C) :
  nStateEvents (state (loop_body fmiWarning fmu tEnd h s)) = nStateEvents s \/
  exists s1,
    before_events fmiWarning fmu tEnd h s = Next s1 /\
    stateEvent s1 = true.
Proof.
  rewrite loop_body_events.
  pose proof (before_events_keeps_counters tEnd h s) as K.
  destruct (before_events fmiWarning fmu tEnd h s) as [s1|s1|m s1] eqn:E;
    cbn [bind state] in *; unfold event_counters in K.
  - destruct (stateEvent s1) eqn:Es; [right; exists s1; auto|].
    left.
    pose proof (handle_events_counters s1) as Hh.
    rewrite Es in Hh. cbn [Z.b2z] in Hh. rewrite Z.add_0_r in Hh.
    unfold event_counters in Hh.
    destruct (handle_events fmiWarning fmu s1) as [s2|s2|m s2];
      cbn [bind state] in *; try congruence.
    pose proof (finish_keeps_counters s2) as Kf.
    unfold event_counters in Kf. congruence.
  - left. congruence.
  - left. congruence.
Qed.

Lemma before_events_indicators (tEnd h : Q) (s s1 : Sim C) :
  before_events fmiWarning fmu tEnd h s = Next s1 ->
  prez s1 = save_indicators (nz fmu) (prez s) (z s) /\
  (exists fmiFlag c c',
      getEventIndicators fmu c (z s) (nz fmu) = (fmiFlag, c', z s1)) /\
  stateEvent s1 = detectStateEvent (nz fmu) (prez s1) (z s1).
Proof.
  intros E1. unfold before_events in E1. apply bind_Next in E1.
  destruct E1 as (s4 & E4 & E1).
  pose proof (before_check_keeps_indicators tEnd h s) as K4.
  rewrite E4 in K4. cbn [state] in K4.
  apply check_state_event_Next in E1.
  destruct E1 as (Hp & (fmiFlag & c & Hz) & Hs).
  unfold indicators in K4. injection K4 as K4z K4p _.
  rewrite <- K4z, <- K4p.
  split; [exact Hp|]. split; [|exact Hs].
  exists fmiFlag, (comp s4), c. exact Hz.
Qed.

Lemma passed_indicators (tEnd h : Q) (s s' : Sim C) :
  passed (loop_body fmiWarning fmu tEnd h s) s' ->
  prez s' = save_indicators (nz fmu) (prez s) (z s) /\
  (exists fmiFlag c c',
      getEventIndicators fmu c (z s) (nz fmu) = (fmiFlag, c', z s')) /\
  stateEvent s' = detectStateEvent (nz fmu) (prez s') (z s').
Proof.
  intros H. apply loop_body_passed in H. destruct H as (s1 & E1 & H).
  apply before_events_indicators in E1.
  assert (Hi : indicators s' = indicators s1).
  { pose proof (handle_keeps_indicators s1) as Kh.
    destruct H as [(s2 & E2 & E3 & _)|(E2 & _)];
      rewrite E2 in Kh; cbn [state] in Kh.
    - pose proof (finish_keeps_indicators s2) as Kf.
      rewrite E3 in Kf. cbn [state] in Kf. congruence.
    - exact Kh. }
  unfold indicators in Hi. injection Hi as -> -> ->. exact E1.
Qed.

Lemma previous_zero_at_first_pass (tEnd h : Q) (loggingOn : bool)
      (name : option string) (tEnd' : Q) (s0 s1 : Sim C) :
  prepare fmiWarning fmu calloc_ok fopen_ok tEnd loggingOn name
  = inr (tEnd', s0) ->
  passed (loop_body fmiWarning fmu tEnd' h s0) s1 ->
  prez s1 = repeat 0 (nz fmu) /\ stateEvent s1 = false.
Proof.
  intros Hp H.
  destruct (prepare_entry _ _ _ _ _ Hp) as (_ & _ & Hz & Hpz & _).
  apply passed_indicators in H. destruct H as (Hprez & _ & Hflag).
  rewrite Hz, Hpz in Hprez.
  rewrite save_indicators_copy in Hprez by apply repeat_length.
  split; [exact Hprez|].
  rewrite Hflag, Hprez. apply detectStateEvent_zero_prez.
Qed.

(** *** The loop leaves the resources alone *)

Lemma at_loop_test_resources (tEnd h : Q) (s0 s : Sim C) (n : nat) :
  at_loop_test fmiWarning fmu tEnd h s0 n s -> resources s = resources s0.
Proof.
  intros Hr. induction Hr as [|n s1 s2 Hr IH Hg Hb].
  - reflexivity.
  - pose proof (loop_body_keeps_resources tEnd h s1) as K.
    rewrite Hb in K. cbn [state] in K. congruence.
Qed.

Lemma simulation_loop_resources (fuel : nat) (tEnd h : Q) (s : Sim C)
      (o : Outcome C) :
  simulation_loop fmiWarning fmu fuel tEnd h s = Some o ->
  resources (state o) = resources s.
Proof.
  intros H. apply simulation_loop_ends in H.
  destruct H as (n & s1 & Hr & [(-> & _)|(_ & <- & _)]).
  - exact (at_loop_test_resources tEnd h s s1 n Hr).
  - rewrite loop_body_keeps_resources.
    exact (at_loop_test_resources tEnd h s s1 n Hr).
Qed.

(** *** The time of a pass *)


Lemma next_time_forward (tEnd h : Q) (ev : fmiEventInfo) (t : Q) :
  0 <= h -> t < tEnd ->
  (upcomingTimeEvent ev = true -> t <= nextEventTime ev) ->
  t <= fst (fst (next_time tEnd h ev t)).
Proof.
  intros Hh Ht Hev. unfold next_time. cbn [fst].
  destruct (upcomingTimeEvent ev && Qltb (nextEventTime ev) (min (t + h) tEnd))
    eqn:E.
  - apply andb_true_iff in E. destruct E as [E _]. exact (Hev E).
  - apply min_glb; lra.
Qed.

Lemma loop_body_simtime (tEnd h : Q) (s : Sim C) :
  simtime (state (loop_body fmiWarning fmu tEnd h s)) = simtime s \/
  simtime (state (loop_body fmiWarning fmu tEnd h s))
  = fst (fst (next_time tEnd h (eventInfo s) (simtime s))).
Proof.
  destruct (loop_body_clock tEnd h s) as [(Hc & _)|Hc];
    unfold clock in Hc.
  - left. congruence.
  - right. rewrite <- Hc. reflexivity.
Qed.


(** *** The rows of a pass *)





(** *** Errors of the model *)

Lemma check_error (fmiFlag : fmiStatus) (msg : string) (s : Sim C) :
  (fmiWarning < fmiFlag)%Z ->
  check fmiWarning fmiFlag msg s = Abort msg (fmuError msg s).
Proof.
  intros H. unfold check. apply Z.ltb_lt in H. rewrite H. reflexivity.
Qed.

(** Six of the seven calls in the loop body are followed by
    [return fmuError(...)]: an error of one of them ends the pass at
    that call. *)
Lemma getContinuousStates_error (s : Sim C) :
  (fmiWarning < fst (fst (getContinuousStates fmu (comp s) (x s) (nx fmu))))%Z ->
  exists s', get_state_and_derivatives fmiWarning fmu s
             = Abort "could not retrieve states" s'.
Proof.
  unfold get_state_and_derivatives.
  destruct (getContinuousStates fmu _ _ _) as [[fmiFlag c] x'].
  cbn [fst]. intros H. rewrite (check_error _ _ _ H).
  eexists. reflexivity.
Qed.

Lemma getDerivatives_error (s : Sim C) (fmiFlag : fmiStatus) (c : C)
      (x' : list Q) :
  getContinuousStates fmu (comp s) (x s) (nx fmu) = (fmiFlag, c, x') ->
  (fmiFlag <= fmiWarning)%Z ->
  (fmiWarning < fst (fst (getDerivatives fmu c (xdot s) (nx fmu))))%Z ->
  exists s', get_state_and_derivatives fmiWarning fmu s
             = Abort "could not retrieve derivatives" s'.
Proof.
  unfold get_state_and_derivatives. intros -> Hok.
  unfold check at 1.
  replace (fmiWarning <? fmiFlag)%Z with false
    by (symmetry; apply Z.ltb_ge; exact Hok).
  cbn [bind comp xdot with_x with_comp].
  destruct (getDerivatives fmu _ _ _) as [[fmiFlag2 c2] xd].
  cbn [fst]. intros H. rewrite (check_error _ _ _ H).
  eexists. reflexivity.
Qed.

Lemma setContinuousStates_error (s : Sim C) :
  (fmiWarning <
   fst (setContinuousStates fmu (comp s)
          (euler (nx fmu) (x s) (xdot s) (dt s)) (nx fmu)))%Z ->
  exists s', perform_step fmiWarning fmu s = Abort "could not set states" s'.
Proof.
  unfold perform_step. cbn [comp x with_x].
  destruct (setContinuousStates fmu _ _ _) as [fmiFlag c].
  cbn [fst]. intros H. rewrite (check_error _ _ _ H).
  eexists. reflexivity.
Qed.

Lemma completedIntegratorStep_error (s : Sim C) :
  (fmiWarning < fst (fst (completedIntegratorStep fmu (comp s))))%Z ->
  exists s', check_step_event fmiWarning fmu s
             = Abort "could not complete intgrator step" s'.
Proof.
  unfold check_step_event.
  destruct (completedIntegratorStep fmu _) as [[fmiFlag c] e].
  cbn [fst]. intros H. rewrite (check_error _ _ _ H).
  eexists. reflexivity.
Qed.

Lemma getEventIndicators_error (s : Sim C) :
  (fmiWarning <
   fst (fst (getEventIndicators fmu (comp s) (z s) (nz fmu))))%Z ->
  exists s', check_state_event fmiWarning fmu s
             = Abort "could not retrieve event indicators" s'.
Proof.
  unfold check_state_event. cbn [comp z with_prez].
  destruct (getEventIndicators fmu _ _ _) as [[fmiFlag c] z'].
  cbn [fst]. intros H. rewrite (check_error _ _ _ H).
  eexists. reflexivity.
Qed.

Lemma eventUpdate_error (s : Sim C) :
  timeEvent s || stateEvent s || stepEvent s = true ->
  (fmiWarning < fst (fst (eventUpdate fmu (comp s) false (eventInfo s))))%Z ->
  exists s', handle_events fmiWarning fmu s
             = Abort "could not perform event update" s'.
Proof.
  unfold handle_events. intros ->.
  assert (Hc : comp (count_events s) = comp s)
    by (unfold count_events; destruct s as [? ? ? ? ? ? ? ? [] [] []];
        reflexivity).
  assert (He : eventInfo (count_events s) = eventInfo s)
    by (unfold count_events; destruct s as [? ? ? ? ? ? ? ? [] [] []];
        reflexivity).
  rewrite Hc, He.
  destruct (eventUpdate fmu _ _ _) as [[fmiFlag c] ev].
  cbn [fst]. intros H. rewrite (check_error _ _ _ H).
  eexists. reflexivity.
Qed.

(** * The specification, claim by claim *)

(** C1.  In a pass of the loop where a time event is pending at a time [T]
    with [simtime < T < min (simtime + h) tEnd], the time is advanced to
    exactly [T], with [dt = T - simtime], and the time-event flag is set.
    The pass counts the event, and the row it writes at its end is stamped
    [T]. *)
Theorem time_event_clamps_step (tEnd h T : Q) (s : Sim C) :
  upcomingTimeEvent (eventInfo s) = true ->
  nextEventTime (eventInfo s) = T ->
  simtime s < T ->
  T < min (simtime s + h) tEnd ->
  next_time tEnd h (eventInfo s) (simtime s) = (T, T - simtime s, true) /\
  forall s',
    loop_body fmiWarning fmu tEnd h s = Next s' \/
    loop_body fmiWarning fmu tEnd h s = Break s' ->
    simtime s' = T /\ dt s' = T - simtime s /\ timeEvent s' = true /\
    nTimeEvents s' = (nTimeEvents s + 1)%Z /\
    (loop_body fmiWarning fmu tEnd h s = Next s' ->
     file s' = option_map (outputRow T false) (file s)).
Proof.
  intros Hup HT Hlo Hhi.
  assert (Hnext : next_time tEnd h (eventInfo s) (simtime s)
                  = (T, T - simtime s, true)).
  { unfold next_time. rewrite Hup, HT. cbn [andb].
    apply Qltb_lt in Hhi. rewrite Hhi. reflexivity. }
  split; [exact Hnext|].
  intros s' Hpass.
  pose proof (loop_body_passed_clock tEnd h s s' Hpass) as Hc.
  rewrite Hnext in Hc. unfold clock in Hc.
  injection Hc as Ht Hd He.
  pose proof (loop_body_passed_counters tEnd h s s' Hpass) as Hn.
  unfold event_counters in Hn. injection Hn as Hn _ _.
  rewrite He in Hn. cbn [Z.b2z] in Hn.
  repeat split; try assumption.
  intros HN. apply loop_body_Next_sink in HN.
  destruct HN as [Hf _]. rewrite Hf, Ht. reflexivity.
Qed.

(** C2.  The state-event flag of a step is set exactly when some index
    [i < nz] has [prez[i] * z[i] < 0].  An indicator that moves from a
    positive value to zero, or stays zero, does not set it, and without
    indicators it is never set.  The flag of a pass of the loop is the
    result of this check on the saved and the new indicators. *)
Theorem state_event_iff_sign_change (n : nat) (previous current : list Q) :
  (detectStateEvent n previous current = true <->
   exists i, (i < n)%nat /\ nth i previous 0 * nth i current 0 < 0) /\
  ((forall i, (i < n)%nat ->
              (0 < nth i previous 0 /\ nth i current 0 == 0) \/
              (nth i previous 0 == 0 /\ nth i current 0 == 0)) ->
   detectStateEvent n previous current = false) /\
  detectStateEvent 0 previous current = false /\
  forall s s' : Sim C,
    check_state_event fmiWarning fmu s = Next s' ->
    (stateEvent s' = true <->
     exists i, (i < nz fmu)%nat /\ nth i (prez s') 0 * nth i (z s') 0 < 0).
Proof.
  split; [apply detectStateEvent_spec|].
  split.
  - intros H. apply detectStateEvent_false. intros i Hi.
    destruct (H i Hi) as [[_ Hz]|[_ Hz]]; rewrite Hz; lra.
  - split; [reflexivity|].
    intros s s' H. apply check_state_event_Next in H.
    destruct H as (_ & _ & ->). apply detectStateEvent_spec.
Qed.

(** C9.  The integrator step is the forward Euler step: entry [i < nx] of
    the new state is [x[i] + dt * xdot[i]].  With [dt = 0] the state keeps
    its values, and the state [0] with derivative [2] and [dt = 1/2]
    becomes [1].  This is the step the loop body performs on its [x],
    [xdot] and [dt]. *)
Theorem euler_step (n : nat) (xs ds : list Q) (step : Q) :
  length xs = n ->
  (forall i, (i < n)%nat ->
             nth i (euler n xs ds step) 0 = nth i xs 0 + step * nth i ds 0) /\
  same_values (euler n xs ds 0) xs /\
  same_values (euler 1 [0] [2] (1#2)) [1] /\
  forall s s' : Sim C,
    perform_step fmiWarning fmu s = Next s' ->
    x s' = euler (nx fmu) (x s) (xdot s) (dt s).
Proof.
  intros Hlen. split.
  - intros i Hi. apply euler_nth; lia.
  - split; [apply euler_dt_zero|]. split.
    + split; [reflexivity|].
      intros [|[|i]]; cbn; reflexivity.
    + intros s s'. unfold perform_step, check. cbn [comp x with_x].
      destruct (setContinuousStates fmu _ _ _) as [fmiFlag c].
      destruct (fmiWarning <? fmiFlag)%Z; [discriminate|].
      intros H. injection H as <-. reflexivity.
Qed.

(** C3 fails on the code.  A scripted FMU whose [setTime] reports an
    error in the loop: the pass is not aborted.  The error is reported and
    the pass goes on to its end, takes the step, writes its row and counts
    the step. *)
Theorem setTime_error_does_not_abort :
  let fmu := scripted setTime_fails in
  let s0 := snd (entry setTime_fails 1) in
  (warning < fst (setTime fmu (comp s0) (3#10)))%Z /\
  exists s1,
    loop_body warning fmu 1 (3#10) s0 = Next s1 /\
    errlog s1 = ["could not set time"%string] /\
    simtime s1 = 3#10 /\
    nSteps s1 = 1%Z /\
    file s1 = Some [Header; Values 0; Values (3#10)].
Proof.
  cbv zeta. split; [reflexivity|].
  eexists. split; [vm_compute; reflexivity|].
  repeat split.
Qed.

(** C4, as the code has it.  With an open result file, one row of values
    is written at [t0] before the loop (after the line of column names),
    and every pass that reaches the end of the loop body writes exactly
    one row, stamped with its new time, and counts one step.  A pass left
    by [break], when the model asks to terminate, or by an error writes
    no row and counts no step.  So after [n] complete passes, and however
    the loop ends, the file holds the line of names, the row at [t0] and
    one row for each step counted. *)
Theorem rows_one_per_completed_pass (tEnd h : Q) (loggingOn : bool)
        (name : option string) (tEnd' : Q) (s0 : Sim C) (rows0 : list Row) :
  prepare fmiWarning fmu calloc_ok fopen_ok tEnd loggingOn name
  = inr (tEnd', s0) ->
  file s0 = Some rows0 ->
  rows0 = [Header; Values t0] /\
  (forall s s' rows,
      loop_body fmiWarning fmu tEnd' h s = Next s' ->
      file s = Some rows ->
      file s' = Some (rows ++ [Values (simtime s')]) /\
      nSteps s' = (nSteps s + 1)%Z) /\
  (forall s,
      (forall s', loop_body fmiWarning fmu tEnd' h s <> Next s') ->
      file (state (loop_body fmiWarning fmu tEnd' h s)) = file s /\
      nSteps (state (loop_body fmiWarning fmu tEnd' h s)) = nSteps s) /\
  (forall n s,
      at_loop_test fmiWarning fmu tEnd' h s0 n s ->
      nSteps s = Z.of_nat n /\
      exists ts, length ts = n /\ file s = Some (rows0 ++ map Values ts)) /\
  (forall fuel o,
      simulation_loop fmiWarning fmu fuel tEnd' h s0 = Some o ->
      exists ts,
        nSteps (state o) = Z.of_nat (length ts) /\
        file (state o) = Some (rows0 ++ map Values ts)).
Proof.
  intros Hp Hf.
  destruct (prepare_entry _ _ _ _ _ Hp)
    as (_ & _ & _ & _ & _ & Hn0 & _ & Hfile).
  assert (Hnext : forall s s' rows,
             loop_body fmiWarning fmu tEnd' h s = Next s' ->
             file s = Some rows ->
             file s' = Some (rows ++ [Values (simtime s')]) /\
             nSteps s' = (nSteps s + 1)%Z).
  { intros s s' rows Hb Hr. apply loop_body_Next_sink in Hb.
    destruct Hb as [Hb1 Hb2]. rewrite Hb1, Hr. split; [reflexivity|exact Hb2]. }
  assert (Hleft : forall s,
             (forall s', loop_body fmiWarning fmu tEnd' h s <> Next s') ->
             file (state (loop_body fmiWarning fmu tEnd' h s)) = file s /\
             nSteps (state (loop_body fmiWarning fmu tEnd' h s)) = nSteps s).
  { intros s Hs. pose proof (loop_body_left_sink tEnd' h s Hs) as K.
    unfold sink in K. injection K as K1 K2. split; assumption. }
  assert (Hrun : forall n s,
             at_loop_test fmiWarning fmu tEnd' h s0 n s ->
             nSteps s = Z.of_nat n /\
             exists ts, length ts = n /\ file s = Some (rows0 ++ map Values ts)).
  { intros n s Hr. induction Hr as [|n s1 s2 Hr IH Hg Hb].
    - split; [exact Hn0|]. exists []. split; [reflexivity|].
      cbn [map]. rewrite app_nil_r. exact Hf.
    - destruct IH as (IHn & ts & Hlen & Hrows).
      destruct (Hnext s1 s2 _ Hb Hrows) as [Hf2 Hn2].
      split; [lia|].
      exists (ts ++ [simtime s2]). split.
      + rewrite length_app. cbn [length]. lia.
      + rewrite Hf2, map_app, app_assoc. reflexivity. }
  split; [destruct Hfile as [Hfile|Hfile]; congruence|].
  split; [exact Hnext|]. split; [exact Hleft|]. split; [exact Hrun|].
  intros fuel o Hl. apply simulation_loop_ends in Hl.
  destruct Hl as (n & s1 & Hr & Hend).
  destruct (Hrun n s1 Hr) as (Hn & ts & Hlen & Hrows).
  exists ts. rewrite Hlen.
  destruct Hend as [(-> & _)|(_ & <- & Hnot)].
  - split; assumption.
  - destruct (Hleft s1 Hnot) as [-> ->]. split; assumption.
Qed.

(** C5, as the code has it.  When the loop is left by its test (normal
    completion) or by [break] (the model asked to terminate), the
    function returns success after the cleanup: the instance is freed and
    the result file, if there is one, is closed.  When a pass is aborted
    by an error of the model, the function returns at once: the instance
    is not freed and the file is not closed. *)
Theorem cleanup_unless_aborted (fuel : nat) (tEnd h : Q) (loggingOn : bool)
        (separator : ascii) (name : option string) (tEnd' : Q)
        (s0 : Sim C) (o : Outcome C) :
  prepare fmiWarning fmu calloc_ok fopen_ok tEnd loggingOn name
  = inr (tEnd', s0) ->
  simulation_loop fmiWarning fmu fuel tEnd' h s0 = Some o ->
  match o with
  | Next s' | Break s' =>
      fmuSimulate fmiWarning fmu calloc_ok fopen_ok fuel tEnd h loggingOn
                  separator name
      = Some (Returned Success (cleanup s')) /\
      instanceFreed (cleanup s') = true /\
      file (cleanup s') = file s' /\
      (file s' <> None -> fileClosed (cleanup s') = true)
  | Abort msg s' =>
      fmuSimulate fmiWarning fmu calloc_ok fopen_ok fuel tEnd h loggingOn
                  separator name
      = Some (Returned (Error msg) s') /\
      instanceFreed s' = false /\ fileClosed s' = false
  end.
Proof.
  intros Hp Hl.
  assert (Hcl : forall s' : Sim C, instanceFreed (cleanup s') = true /\
                           file (cleanup s') = file s' /\
                           (file s' <> None -> fileClosed (cleanup s') = true)).
  { intros s'. unfold cleanup. cbn [file with_instanceFreed].
    destruct (file s') eqn:Ef; cbn; rewrite ?Ef; repeat split; congruence. }
  unfold fmuSimulate. rewrite Hp, Hl.
  destruct o as [s'|s'|msg s'].
  - split; [reflexivity | apply Hcl].
  - split; [reflexivity | apply Hcl].
  - split; [reflexivity|].
    pose proof (simulation_loop_resources _ _ _ _ _ Hl) as K.
    destruct (prepare_entry _ _ _ _ _ Hp) as (_ & _ & _ & _ & Hr & _).
    cbn [state] in K. rewrite Hr in K. unfold resources in K.
    injection K as K1 K2. split; assumption.
Qed.

(** C6, as the code has it.  In the first pass of a run the previous
    indicators that are compared are the zeros of the allocation, not the
    indicators sampled first.  In every pass the previous indicators that
    are compared are the indicators as they were when the pass began:
    from the second pass on, those sampled in the pass before.  The new
    indicators are what [getEventIndicators] delivers in the pass. *)
Theorem previous_indicators (tEnd h : Q) (loggingOn : bool)
        (name : option string) (tEnd' : Q) (s0 : Sim C) :
  prepare fmiWarning fmu calloc_ok fopen_ok tEnd loggingOn name
  = inr (tEnd', s0) ->
  (forall s1,
      passed (loop_body fmiWarning fmu tEnd' h s0) s1 ->
      prez s1 = repeat 0 (nz fmu)) /\
  (forall s s',
      length (z s) = nz fmu -> length (prez s) = nz fmu ->
      passed (loop_body fmiWarning fmu tEnd' h s) s' ->
      prez s' = z s /\
      exists fmiFlag c c',
        getEventIndicators fmu c (z s) (nz fmu) = (fmiFlag, c', z s')).
Proof.
  intros Hp.
  assert (Hpass : forall s s',
             length (z s) = nz fmu -> length (prez s) = nz fmu ->
             passed (loop_body fmiWarning fmu tEnd' h s) s' ->
             prez s' = z s /\
             exists fmiFlag c c',
               getEventIndicators fmu c (z s) (nz fmu) = (fmiFlag, c', z s')).
  { intros s s' Hz Hpz H. apply passed_indicators in H.
    destruct H as (Hprez & Hsample & _).
    rewrite Hprez, save_indicators_copy by assumption.
    split; [reflexivity | exact Hsample]. }
  split; [|exact Hpass].
  intros s1 H.
  destruct (prepare_entry _ _ _ _ _ Hp) as (_ & _ & Hz & Hpz & _).
  destruct (Hpass s0 s1) as [E _]; try exact H.
  - rewrite Hz. apply repeat_length.
  - rewrite Hpz. apply repeat_length.
  - rewrite E. exact Hz.
Qed.

(** C10.  In the first pass of a run with [nz > 0] no state event is
    counted, however the pass ends.  When the pass goes through the event
    handling, the previous indicators that were compared are all zero,
    from the allocation, so every product [prez[i] * z[i]] is zero and the
    state-event flag is not set, whatever the model's indicators are. *)
Theorem first_pass_detects_no_state_event (tEnd h : Q) (loggingOn : bool)
        (name : option string) (tEnd' : Q) (s0 : Sim C) :
  prepare fmiWarning fmu calloc_ok fopen_ok tEnd loggingOn name
  = inr (tEnd', s0) ->
  (0 < nz fmu)%nat ->
  nStateEvents (state (loop_body fmiWarning fmu tEnd' h s0)) = 0%Z /\
  forall s1,
    passed (loop_body fmiWarning fmu tEnd' h s0) s1 ->
    prez s1 = repeat 0 (nz fmu) /\
    (forall i, nth i (prez s1) 0 * nth i (z s1) 0 == 0) /\
    stateEvent s1 = false.
Proof.
  intros Hp Hnz.
  destruct (prepare_entry _ _ _ _ _ Hp)
    as (_ & _ & Hz & Hpz & _ & _ & Hc0 & _).
  split.
  - destruct (loop_body_nStateEvents tEnd' h s0) as [E|(s1 & E1 & Es)].
    + rewrite E. unfold event_counters in Hc0. congruence.
    + exfalso. apply before_events_indicators in E1.
      destruct E1 as (Hprez & _ & Hflag).
      rewrite Hz, Hpz in Hprez.
      rewrite save_indicators_copy in Hprez by apply repeat_length.
      rewrite Hflag, Hprez, detectStateEvent_zero_prez in Es. discriminate.
  - intros s1 H.
    destruct (previous_zero_at_first_pass tEnd h loggingOn name tEnd' s0 s1
                Hp H) as [Hprez Hflag].
    split; [exact Hprez|]. split; [|exact Hflag].
    intros i. rewrite Hprez, nth_repeat_0. lra.
Qed.

(** C7, as the code has it.  With a step size that is not negative, a
    pass entered before the end time never moves the time backwards,
    provided the time event that is pending, if any, is not scheduled
    before the current time.  Every pass that reaches the end of the loop
    body adds exactly 1 to the step counter.  So, over a run in which no
    pending time event is overdue at the loop test, the time at the loop
    test never falls below the time at the start, and after [n] complete
    passes the counter has grown by [n]. *)
Theorem time_goes_forward (tEnd h : Q) :
  0 <= h ->
  (forall s : Sim C,
      simtime s < tEnd ->
      (upcomingTimeEvent (eventInfo s) = true ->
       simtime s <= nextEventTime (eventInfo s)) ->
      simtime s <= simtime (state (loop_body fmiWarning fmu tEnd h s))) /\
  (forall s s' : Sim C,
      loop_body fmiWarning fmu tEnd h s = Next s' ->
      nSteps s' = (nSteps s + 1)%Z) /\
  (forall (s0 s : Sim C) (n : nat),
      (forall k s1,
          at_loop_test fmiWarning fmu tEnd h s0 k s1 ->
          upcomingTimeEvent (eventInfo s1) = true ->
          simtime s1 <= nextEventTime (eventInfo s1)) ->
      at_loop_test fmiWarning fmu tEnd h s0 n s ->
      simtime s0 <= simtime s /\ nSteps s = (nSteps s0 + Z.of_nat n)%Z).
Proof.
  intros Hh.
  assert (Hpass : forall s : Sim C,
             simtime s < tEnd ->
             (upcomingTimeEvent (eventInfo s) = true ->
              simtime s <= nextEventTime (eventInfo s)) ->
             simtime s <= simtime (state (loop_body fmiWarning fmu tEnd h s))).
  { intros s Hs Hev. destruct (loop_body_simtime tEnd h s) as [-> | ->].
    - lra.
    - apply next_time_forward; assumption. }
  split; [exact Hpass|]. split.
  - intros s s' Hb. apply loop_body_Next_sink in Hb. tauto.
  - intros s0 s n Hev Hr. induction Hr as [|n s1 s2 Hr IH Hg Hb].
    + split; [lra | lia].
    + destruct IH as [IHt IHn].
      apply Qltb_lt in Hg.
      pose proof (Hpass s1 Hg (Hev n s1 Hr)) as Hfw.
      rewrite Hb in Hfw. cbn [state] in Hfw.
      apply loop_body_Next_sink in Hb. destruct Hb as [_ Hn].
      split; [lra | lia].
Qed.


(** * Further properties of the simulator *)

(** ** One pass *)

Lemma before_events_keeps_eventInfo (tEnd h : Q) :
  keeps (@eventInfo C) (before_events fmiWarning fmu tEnd h).
Proof. frame. Qed.

Lemma finish_keeps_eventInfo : keeps (@eventInfo C) (@finish_step C).
Proof. frame. Qed.

(** The flags of a pass are those found before the event handling. *)
Lemma passed_flags (tEnd h : Q) (s s' : Sim C) :
  passed (loop_body fmiWarning fmu tEnd h s) s' ->
  exists s1,
    before_events fmiWarning fmu tEnd h s = Next s1 /\
    eventInfo s1 = eventInfo s /\
    timeEvent s1 = timeEvent s' /\ stateEvent s1 = stateEvent s' /\
    stepEvent s1 = stepEvent s' /\
    ((exists s2, handle_events fmiWarning fmu s1 = Next s2 /\
                 eventInfo s2 = eventInfo s' /\
                 loop_body fmiWarning fmu tEnd h s = Next s') \/
     (handle_events fmiWarning fmu s1 = Break s' /\
      loop_body fmiWarning fmu tEnd h s = Break s')).
Proof.
  intros H. apply loop_body_passed in H. destruct H as (s1 & E1 & H).
  exists s1. split; [exact E1|].
  pose proof (before_events_keeps_eventInfo tEnd h s) as Ke.
  rewrite E1 in Ke. cbn [state] in Ke. split; [exact Ke|].
  pose proof (handle_keeps_clock s1) as Kc.
  pose proof (handle_keeps_indicators s1) as Ki.
  pose proof (handle_keeps_stepEvent s1) as Kp.
  unfold clock, indicators in *.
  destruct H as [(s2 & E2 & E3 & Hb)|(E2 & Hb)];
    rewrite E2 in Kc, Ki, Kp; cbn [state] in *.
  - pose proof (finish_keeps_clock s2) as Fc.
    pose proof (finish_keeps_indicators s2) as Fi.
    pose proof (finish_keeps_stepEvent s2) as Fp.
    pose proof (finish_keeps_eventInfo s2) as Fe.
    rewrite E3 in Fc, Fi, Fp, Fe. cbn [state] in *.
    unfold clock, indicators in *.
    repeat split; try congruence.
    left. exists s2. repeat split; congruence.
  - repeat split; try congruence. right. split; assumption.
Qed.

(** What the event handling does to [eventInfo]. *)
Lemma handle_events_eventInfo (s s' : Sim C) :
  passed (handle_events fmiWarning fmu s) s' ->
  (timeEvent s || stateEvent s || stepEvent s = false /\
   handle_events fmiWarning fmu s = Next s /\ s' = s) \/
  (timeEvent s || stateEvent s || stepEvent s = true /\
   exists fmiFlag c,
     eventUpdate fmu (comp s) false (eventInfo s)
     = (fmiFlag, c, eventInfo s') /\
     (handle_events fmiWarning fmu s = Break s' <->
      terminateSimulation (eventInfo s') = true)).
Proof.
  unfold passed, handle_events, check.
  destruct (timeEvent s || stateEvent s || stepEvent s) eqn:Ef.
  - assert (Hc : comp (count_events s) = comp s)
      by (unfold count_events;
          destruct s as [? ? ? ? ? ? ? ? [] [] []]; reflexivity).
    assert (He : eventInfo (count_events s) = eventInfo s)
      by (unfold count_events;
          destruct s as [? ? ? ? ? ? ? ? [] [] []]; reflexivity).
    rewrite Hc, He.
    destruct (eventUpdate fmu (comp s) false (eventInfo s))
      as [[fmiFlag c] ev].
    destruct (fmiWarning <? fmiFlag)%Z; cbn [bind];
      [intros [H|H]; discriminate|].
    cbn [eventInfo with_eventInfo].
    intros H. right. split; [reflexivity|]. exists fmiFlag, c.
    destruct (terminateSimulation ev) eqn:Et;
      destruct H as [H|H]; try discriminate;
      injection H as <-; cbn [eventInfo with_eventInfo];
      (split; [reflexivity|]); rewrite Et; split; congruence.
  - intros [H|H]; [|discriminate]. injection H as <-.
    left. auto.
Qed.

(** X1.  Time and [dt].  In a pass that goes through, [dt] is the
    difference [simtime - tPre] of the new and the old time, as the code
    computes it, and the new time is neither beyond the candidate
    [simtime + h] that the code computes nor beyond the end time. *)
Theorem pass_time_and_dt (tEnd h : Q) (s s' : Sim C) :
  passed (loop_body fmiWarning fmu tEnd h s) s' ->
  dt s' = simtime s' - simtime s /\
  simtime s' <= simtime s + h /\
  simtime s' <= tEnd.
Proof.
  intros H. apply loop_body_passed_clock in H.
  unfold clock, next_time in H. injection H as Ht Hd _.
  rewrite Hd, Ht. split; [reflexivity|].
  pose proof (min_le_l (simtime s + h) tEnd) as Hl.
  pose proof (min_le_r (simtime s + h) tEnd) as Hr.
  destruct (upcomingTimeEvent (eventInfo s) &&
            Qltb (nextEventTime (eventInfo s)) (min (simtime s + h) tEnd))
    eqn:E.
  - apply andb_true_iff in E. destruct E as [_ E].
    apply Qltb_lt in E. split; lra.
  - split; assumption.
Qed.

(** X2.  The last step.  When the step would reach or pass the end time and
    no time event is pending before it, a complete pass lands on the end
    time and is the last one: the loop is left by its test at once. *)
Theorem last_step_lands_on_end (tEnd h : Q) (s s' : Sim C) :
  tEnd <= simtime s + h ->
  (upcomingTimeEvent (eventInfo s) = true ->
   tEnd <= nextEventTime (eventInfo s)) ->
  loop_body fmiWarning fmu tEnd h s = Next s' ->
  simtime s' == tEnd /\ timeEvent s' = false /\
  forall fuel,
    simulation_loop fmiWarning fmu fuel tEnd h s' = Some (Next s').
Proof.
  intros Hend Hev Hb.
  assert (Hp : passed (loop_body fmiWarning fmu tEnd h s) s')
    by (left; exact Hb).
  apply loop_body_passed_clock in Hp.
  unfold clock, next_time in Hp. injection Hp as Ht _ He.
  assert (Hm : min (simtime s + h) tEnd == tEnd).
  { unfold min. destruct (Qltb tEnd (simtime s + h)) eqn:E.
    - reflexivity.
    - apply Qltb_ge in E. lra. }
  assert (Hno : upcomingTimeEvent (eventInfo s) &&
                Qltb (nextEventTime (eventInfo s)) (min (simtime s + h) tEnd)
                = false).
  { destruct (upcomingTimeEvent (eventInfo s)) eqn:Eu; [|reflexivity].
    cbn [andb]. apply Qltb_ge. specialize (Hev eq_refl). lra. }
  rewrite Hno in Ht, He.
  assert (Hs : simtime s' == tEnd) by (rewrite Ht; exact Hm).
  split; [exact Hs|]. split; [exact He|].
  intros fuel.
  assert (Hg : Qltb (simtime s') tEnd = false) by (apply Qltb_ge; lra).
  destruct fuel; cbn [simulation_loop]; rewrite Hg; reflexivity.
Qed.

(** X3.  A time event on the grid.  The test for a time event is strict: an
    event scheduled exactly at the time the step ends anyway is not
    flagged in the pass that reaches it.  A pass that starts at the time
    of a pending event, with [h > 0] and before the end time, flags the
    event then, in a step of length zero that leaves the time where it
    is. *)
Theorem time_event_on_the_grid (tEnd h : Q) (s s' : Sim C) :
  passed (loop_body fmiWarning fmu tEnd h s) s' ->
  (nextEventTime (eventInfo s) == min (simtime s + h) tEnd ->
   timeEvent s' = false /\ simtime s' = min (simtime s + h) tEnd) /\
  (upcomingTimeEvent (eventInfo s) = true ->
   nextEventTime (eventInfo s) == simtime s ->
   0 < h -> simtime s < tEnd ->
   timeEvent s' = true /\ dt s' == 0 /\ simtime s' == simtime s).
Proof.
  intros H. apply loop_body_passed_clock in H.
  unfold clock, next_time in H. injection H as Ht Hd He. split.
  - intros Hgrid.
    assert (Hno : Qltb (nextEventTime (eventInfo s))
                       (min (simtime s + h) tEnd) = false)
      by (apply Qltb_ge; lra).
    rewrite Hno, andb_false_r in Ht, He. split; assumption.
  - intros Hup Hnow Hh Hs.
    assert (Hlt : Qltb (nextEventTime (eventInfo s))
                       (min (simtime s + h) tEnd) = true).
    { apply Qltb_lt. assert (simtime s <= min (simtime s + h) tEnd)
        by (apply min_glb; lra).
      unfold min in *. destruct (Qltb tEnd (simtime s + h)); lra. }
    rewrite Hup, Hlt in Ht, Hd, He. cbn [andb] in *.
    split; [exact He|]. rewrite Hd, Ht. split; lra.
Qed.

(** The event handling of a pass that goes through. *)
Lemma passed_eventInfo (tEnd h : Q) (s s' : Sim C) :
  passed (loop_body fmiWarning fmu tEnd h s) s' ->
  (timeEvent s' || stateEvent s' || stepEvent s' = false ->
   eventInfo s' = eventInfo s /\
   loop_body fmiWarning fmu tEnd h s = Next s') /\
  (timeEvent s' || stateEvent s' || stepEvent s' = true ->
   (exists fmiFlag c c',
       eventUpdate fmu c false (eventInfo s) = (fmiFlag, c', eventInfo s')) /\
   (loop_body fmiWarning fmu tEnd h s = Break s' <->
    terminateSimulation (eventInfo s') = true)).
Proof.
  intros H. apply passed_flags in H.
  destruct H as (s1 & _ & He & <- & <- & <- & H).
  assert (Hh : exists s2, passed (handle_events fmiWarning fmu s1) s2 /\
                          eventInfo s2 = eventInfo s' /\
                          (handle_events fmiWarning fmu s1 = Break s2 <->
                           loop_body fmiWarning fmu tEnd h s = Break s')).
  { destruct H as [(s2 & E2 & E3 & Hb)|(E2 & Hb)].
    - exists s2. split; [left; exact E2|]. split; [exact E3|].
      rewrite E2, Hb. split; discriminate.
    - exists s'. split; [right; exact E2|]. split; [reflexivity|].
      rewrite E2, Hb. split; reflexivity. }
  destruct Hh as (s2 & Hp & He2 & Hbr).
  apply handle_events_eventInfo in Hp.
  destruct Hp as [(Hf & Hn & ->)|(Hf & fmiFlag & c & Hu & Ht)].
  - split.
    + intros _. split; [congruence|].
      destruct H as [(s3 & _ & _ & Hb)|(E2 & _)]; [exact Hb|congruence].
    + rewrite Hf. discriminate.
  - split.
    + rewrite Hf. discriminate.
    + intros _. split.
      * exists fmiFlag, (comp s1), c. rewrite <- He, <- He2. exact Hu.
      * rewrite <- Hbr, <- He2. exact Ht.
Qed.

(** X4.  Counting events.  A pass that goes through adds to each of the
    three event counters 1 when its flag is set and nothing otherwise;
    the flags are independent, so one pass can count up to three events.
    With no flag set [eventInfo] is left as it is, the pending time event
    included, and the pass reaches its end; with a flag set, however many,
    the new [eventInfo] is the answer of [eventUpdate] called on the old
    one without intermediate results, and the pass is left by [break]
    exactly when that answer asks to terminate. *)
Theorem events_of_a_pass (tEnd h : Q) (s s' : Sim C) :
  passed (loop_body fmiWarning fmu tEnd h s) s' ->
  nTimeEvents s' = (nTimeEvents s + Z.b2z (timeEvent s'))%Z /\
  nStateEvents s' = (nStateEvents s + Z.b2z (stateEvent s'))%Z /\
  nStepEvents s' = (nStepEvents s + Z.b2z (stepEvent s'))%Z /\
  (timeEvent s' || stateEvent s' || stepEvent s' = false ->
   eventInfo s' = eventInfo s /\
   loop_body fmiWarning fmu tEnd h s = Next s') /\
  (timeEvent s' || stateEvent s' || stepEvent s' = true ->
   (exists fmiFlag c c',
       eventUpdate fmu c false (eventInfo s) = (fmiFlag, c', eventInfo s')) /\
   (loop_body fmiWarning fmu tEnd h s = Break s' <->
    terminateSimulation (eventInfo s') = true)).
Proof.
  intros H.
  pose proof (loop_body_passed_counters tEnd h s s' H) as Hc.
  unfold event_counters in Hc. injection Hc as H1 H2 H3.
  split; [exact H1|]. split; [exact H2|]. split; [exact H3|].
  exact (passed_eventInfo tEnd h s s' H).
Qed.

(** ** Errors and warnings *)

Lemma never_aborts_bind (p q : Sim C -> Outcome C) :
  never_aborts p -> never_aborts q -> never_aborts (fun s => p s >>= q).
Proof.
  intros Hp Hq s msg s' H.
  destruct (p s) as [s1|s1|m s1] eqn:E; cbn [bind] in H.
  - exact (Hq s1 msg s' H).
  - discriminate.
  - exact (Hp s m s1 E).
Qed.

Lemma check_passes (fmiFlag : fmiStatus) (msg : string) (s : Sim C) :
  (fmiFlag <= fmiWarning)%Z -> check fmiWarning fmiFlag msg s = Next s.
Proof.
  intros H. unfold check.
  replace (fmiWarning <? fmiFlag)%Z with false
    by (symmetry; apply Z.ltb_ge; exact H).
  reflexivity.
Qed.

Section NoErrors.
Hypothesis Hok : no_errors fmiWarning fmu.

Lemma get_never_aborts :
  never_aborts (get_state_and_derivatives fmiWarning fmu).
Proof.
  destruct Hok as (H1 & H2 & _).
  intros s msg s'. unfold get_state_and_derivatives.
  specialize (H1 (comp s) (x s) (nx fmu)).
  destruct (getContinuousStates fmu _ _ _) as [[f c] x'].
  rewrite (check_passes _ _ _ H1). cbn [bind comp xdot with_x with_comp].
  specialize (H2 c (xdot s) (nx fmu)).
  destruct (getDerivatives fmu _ _ _) as [[f2 c2] xd].
  rewrite (check_passes _ _ _ H2). discriminate.
Qed.

Lemma advance_never_aborts (tEnd h : Q) :
  never_aborts (advance_simtime fmiWarning fmu tEnd h).
Proof.
  intros s msg s'.
  destruct (advance_simtime_Next tEnd h s) as (s2 & -> & _). discriminate.
Qed.

Lemma perform_never_aborts : never_aborts (perform_step fmiWarning fmu).
Proof.
  destruct Hok as (_ & _ & H3 & _).
  intros s msg s'. unfold perform_step. cbn [comp x with_x].
  specialize (H3 (comp s) (euler (nx fmu) (x s) (xdot s) (dt s)) (nx fmu)).
  destruct (setContinuousStates fmu _ _ _) as [f c].
  rewrite (check_passes _ _ _ H3). discriminate.
Qed.

Lemma check_step_never_aborts :
  never_aborts (check_step_event fmiWarning fmu).
Proof.
  destruct Hok as (_ & _ & _ & H4 & _).
  intros s msg s'. unfold check_step_event.
  specialize (H4 (comp s)).
  destruct (completedIntegratorStep fmu _) as [[f c] e].
  rewrite (check_passes _ _ _ H4). discriminate.
Qed.

Lemma check_state_never_aborts :
  never_aborts (check_state_event fmiWarning fmu).
Proof.
  destruct Hok as (_ & _ & _ & _ & H5 & _).
  intros s msg s'. unfold check_state_event. cbn [comp z with_prez].
  specialize (H5 (comp s) (z s) (nz fmu)).
  destruct (getEventIndicators fmu _ _ _) as [[f c] z'].
  rewrite (check_passes _ _ _ H5). discriminate.
Qed.

Lemma handle_never_aborts : never_aborts (handle_events fmiWarning fmu).
Proof.
  destruct Hok as (_ & _ & _ & _ & _ & H6).
  intros s msg s'. unfold handle_events.
  destruct (timeEvent s || stateEvent s || stepEvent s); [|discriminate].
  specialize (H6 (comp (count_events s)) false (eventInfo (count_events s))).
  destruct (eventUpdate fmu _ _ _) as [[f c] ev].
  rewrite (check_passes _ _ _ H6). cbn [bind].
  destruct (terminateSimulation _); discriminate.
Qed.

Lemma finish_never_aborts : never_aborts (@finish_step C).
Proof. intros s msg s'. unfold finish_step. discriminate. Qed.

Lemma loop_body_never_aborts (tEnd h : Q) :
  never_aborts (loop_body fmiWarning fmu tEnd h).
Proof.
  unfold loop_body.
  repeat apply never_aborts_bind;
    auto using get_never_aborts, advance_never_aborts, perform_never_aborts,
      check_step_never_aborts, check_state_never_aborts,
      handle_never_aborts, finish_never_aborts.
Qed.

End NoErrors.

(** X5.  Warnings.  When every call of the loop body answers with a status
    up to [fmiWarning], warnings included, the pass is never aborted: it
    reaches its end or is left by [break]. *)
Theorem warnings_do_not_abort (tEnd h : Q) (s : Sim C) :
  no_errors fmiWarning fmu ->
  exists s', passed (loop_body fmiWarning fmu tEnd h s) s'.
Proof.
  intros Hok.
  destruct (loop_body fmiWarning fmu tEnd h s) as [s'|s'|m s'] eqn:E.
  - exists s'. left. reflexivity.
  - exists s'. right. reflexivity.
  - exfalso. exact (loop_body_never_aborts Hok tEnd h s m s' E).
Qed.

Lemma reports_bind (p q : Sim C -> Outcome C) :
  reports p -> reports q ->
  reports (fun s => p s >>= q).
Proof.
  intros Hp Hq s msg s' H.
  destruct (p s) as [s1|s1|m s1] eqn:E; cbn [bind] in H.
  - exact (Hq s1 msg s' H).
  - discriminate.
  - injection H as <- <-. exact (Hp s m s1 E).
Qed.

Lemma check_reports (fmiFlag : fmiStatus) (m : string) (s : Sim C)
      (msg : string) (s' : Sim C) :
  In m abort_messages ->
  check fmiWarning fmiFlag m s = Abort msg s' ->
  In msg abort_messages /\ exists pre, errlog s' = pre ++ [msg].
Proof.
  intros Hin. unfold check, fmuError.
  destruct (fmiWarning <? fmiFlag)%Z; [|discriminate].
  intros [= <- <-]. split; [exact Hin|].
  exists (errlog s). reflexivity.
Qed.

Lemma loop_body_reports (tEnd h : Q) :
  reports (loop_body fmiWarning fmu tEnd h).
Proof.
  unfold loop_body. repeat apply reports_bind.
  - intros s msg s'. unfold get_state_and_derivatives.
    destruct (getContinuousStates fmu _ _ _) as [[f c] x'].
    destruct (check fmiWarning f _ _) as [s1|s1|m s1] eqn:E; cbn [bind].
    + destruct (getDerivatives fmu _ _ _) as [[f2 c2] xd].
      apply check_reports. cbn. auto 10.
    + discriminate.
    + intros [= <- <-]. revert E. apply check_reports. cbn. auto 10.
  - intros s msg s' H.
    destruct (advance_simtime_Next tEnd h s) as (s2 & E & _). congruence.
  - intros s msg s'. unfold perform_step.
    destruct (setContinuousStates fmu _ _ _) as [f c].
    apply check_reports. cbn. auto 10.
  - intros s msg s'. unfold check_step_event.
    destruct (completedIntegratorStep fmu _) as [[f c] e].
    apply check_reports. cbn. auto 10.
  - intros s msg s'. unfold check_state_event.
    destruct (getEventIndicators fmu _ _ _) as [[f c] z'].
    destruct (check fmiWarning f _ _) as [s1|s1|m s1] eqn:E; cbn [bind].
    + discriminate.
    + discriminate.
    + intros [= <- <-]. revert E. apply check_reports. cbn. auto 10.
  - intros s msg s'. unfold handle_events.
    destruct (timeEvent s || stateEvent s || stepEvent s); [|discriminate].
    destruct (eventUpdate fmu _ _ _) as [[f c] ev].
    destruct (check fmiWarning f _ _) as [s1|s1|m s1] eqn:E; cbn [bind].
    + destruct (terminateSimulation _); discriminate.
    + discriminate.
    + intros [= <- <-]. revert E. apply check_reports. cbn. auto 10.
  - intros s msg s'. unfold finish_step. discriminate.
Qed.

(** X6.  Aborts are reported.  A pass that is aborted has given its message
    to [fmuError] last, the message is one of the six of the loop body,
    never the one of [setTime], and the function returns with no row
    written and no step counted for the pass. *)
Theorem abort_is_reported (tEnd h : Q) (s s' : Sim C) (msg : string) :
  loop_body fmiWarning fmu tEnd h s = Abort msg s' ->
  In msg abort_messages /\
  msg <> "could not set time"%string /\
  (exists pre, errlog s' = pre ++ [msg]) /\
  file s' = file s /\ nSteps s' = nSteps s.
Proof.
  intros H.
  destruct (loop_body_reports tEnd h s msg s' H) as [Hin Hlog].
  split; [exact Hin|]. split.
  - intros ->. cbn in Hin.
    repeat (destruct Hin as [Hin|Hin]; [discriminate|]). exact Hin.
  - split; [exact Hlog|].
    pose proof (loop_body_left_sink tEnd h s) as K.
    rewrite H in K. cbn [state] in K.
    assert (Hk : sink s' = sink s) by (apply K; discriminate).
    unfold sink in Hk. injection Hk as K1 K2. split; assumption.
Qed.

(** ** The loop as a whole *)

(** A complete pass with no time event pending ends at [min (t + h) tEnd]. *)
Lemma Next_simtime_no_time_event (tEnd h : Q) (s s' : Sim C) :
  upcomingTimeEvent (eventInfo s) = false ->
  passed (loop_body fmiWarning fmu tEnd h s) s' ->
  simtime s' = min (simtime s + h) tEnd /\ timeEvent s' = false.
Proof.
  intros Hup H. apply loop_body_passed_clock in H.
  unfold clock, next_time in H. rewrite Hup in H. cbn [andb] in H.
  injection H as Ht _ He. split; assumption.
Qed.

(** A model that never announces a time event has none pending after a
    pass, if none was pending before. *)
Lemma Next_no_time_event (tEnd h : Q) (s s' : Sim C) :
  never_announces_time_event fmu ->
  upcomingTimeEvent (eventInfo s) = false ->
  passed (loop_body fmiWarning fmu tEnd h s) s' ->
  upcomingTimeEvent (eventInfo s') = false.
Proof.
  intros Hnever Hup H.
  destruct (passed_eventInfo tEnd h s s' H) as [Hno Hyes].
  destruct (timeEvent s' || stateEvent s' || stepEvent s') eqn:Ef.
  - destruct (Hyes eq_refl) as [(f & c & c' & Hu) _].
    specialize (Hnever c false (eventInfo s)). rewrite Hu in Hnever.
    exact Hnever.
  - destruct (Hno eq_refl) as [-> _]. exact Hup.
Qed.

(** With no error and no request to terminate, a pass reaches its end. *)
Lemma quiet_pass_Next (tEnd h : Q) (s : Sim C) :
  no_errors fmiWarning fmu -> never_asks_to_terminate fmu ->
  exists s', loop_body fmiWarning fmu tEnd h s = Next s'.
Proof.
  intros Hok Hnt.
  destruct (loop_body fmiWarning fmu tEnd h s) as [s'|s'|m s'] eqn:E.
  - exists s'. reflexivity.
  - exfalso.
    assert (Hp : passed (loop_body fmiWarning fmu tEnd h s) s')
      by (right; exact E).
    destruct (passed_eventInfo tEnd h s s' Hp) as [Hno Hyes].
    destruct (timeEvent s' || stateEvent s' || stepEvent s') eqn:Ef.
    + destruct (Hyes eq_refl) as [(f & c & c' & Hu) Hbr].
      specialize (Hnt c false (eventInfo s)). rewrite Hu in Hnt.
      cbn [snd] in Hnt. apply Hbr in E. congruence.
    + destruct (Hno eq_refl) as [_ Hn]. congruence.
  - exfalso. exact (loop_body_never_aborts Hok tEnd h s m s' E).
Qed.

(** X9.  A step size that is not positive.  The step size is not checked:
    with [h <= 0] and a model that reports no error, never asks to
    terminate and never announces a time event, the loop entered before
    the end time never ends, whatever the number of passes allowed. *)
Theorem loop_never_ends_without_progress (tEnd h : Q) (s : Sim C) :
  h <= 0 ->
  no_errors fmiWarning fmu ->
  never_asks_to_terminate fmu ->
  never_announces_time_event fmu ->
  upcomingTimeEvent (eventInfo s) = false ->
  simtime s < tEnd ->
  forall fuel, simulation_loop fmiWarning fmu fuel tEnd h s = None.
Proof.
  intros Hh Hok Hnt Hnever Hup Hs fuel. revert s Hup Hs.
  induction fuel as [|fuel IH]; intros s Hup Hs; cbn [simulation_loop];
    (assert (Hg : Qltb (simtime s) tEnd = true) by (apply Qltb_lt; exact Hs));
    rewrite Hg; [reflexivity|].
  destruct (quiet_pass_Next tEnd h s Hok Hnt) as (s' & E). rewrite E.
  assert (Hp : passed (loop_body fmiWarning fmu tEnd h s) s')
    by (left; exact E).
  apply IH.
  - exact (Next_no_time_event tEnd h s s' Hnever Hup Hp).
  - destruct (Next_simtime_no_time_event tEnd h s s' Hup Hp) as [-> _].
    pose proof (min_le_l (simtime s + h) tEnd). lra.
Qed.

(** ** Before and after the loop *)

(** The end time of the loop. *)
Lemma prepare_end_time (tEnd : Q) (loggingOn : bool) (name : option string)
      (tEnd' : Q) (s0 : Sim C) :
  prepare fmiWarning fmu calloc_ok fopen_ok tEnd loggingOn name
  = inr (tEnd', s0) ->
  tEnd' = if terminateSimulation (eventInfo s0) then t0 else tEnd.
Proof.
  unfold prepare, output, fmuError, allocated.
  destruct (instantiateModel fmu loggingOn) as [c|]; [|discriminate].
  destruct (negb calloc_ok); [discriminate|].
  destruct (open_result_file fopen_ok name) as [f|]; [|discriminate].
  cbn [comp with_simtime with_file].
  destruct (setTime fmu c t0) as [fmiFlag c1].
  destruct (fmiWarning <? fmiFlag)%Z; [discriminate|].
  cbn [comp with_comp].
  destruct (initialize fmu c1 false t0) as [[fmiFlag2 c2] ev].
  destruct f; destruct (fmiWarning <? fmiFlag2)%Z; cbn;
    destruct (terminateSimulation ev) eqn:Et; intros [= <- <-]; cbn;
    rewrite Et; reflexivity.
Qed.

(** X10.  Runs without a pass.  When the model asks to terminate at
    initialization, or the end time is not after the start time, the
    loop body is never run: whatever the step size, the function returns
    success with no step counted, the result file, if any, holding the
    line of names and the row at [t0] only, and the cleanup done. *)
Theorem run_without_a_pass (tEnd h : Q) (loggingOn : bool)
        (separator : ascii) (name : option string) (tEnd' : Q) (s0 : Sim C) :
  prepare fmiWarning fmu calloc_ok fopen_ok tEnd loggingOn name
  = inr (tEnd', s0) ->
  terminateSimulation (eventInfo s0) = true \/ tEnd <= t0 ->
  forall fuel,
    fmuSimulate fmiWarning fmu calloc_ok fopen_ok fuel tEnd h loggingOn
                separator name
    = Some (Returned Success (cleanup s0)) /\
    nSteps (cleanup s0) = 0%Z /\
    (file (cleanup s0) = None \/
     file (cleanup s0) = Some [Header; Values t0] /\
     fileClosed (cleanup s0) = true) /\
    instanceFreed (cleanup s0) = true.
Proof.
  intros Hp Hwhy fuel.
  destruct (prepare_entry _ _ _ _ _ Hp)
    as (Ht0 & _ & _ & _ & _ & Hn0 & _ & Hfile).
  pose proof (prepare_end_time _ _ _ _ _ Hp) as Hend.
  assert (Hg : Qltb (simtime s0) tEnd' = false).
  { apply Qltb_ge. rewrite Ht0, Hend.
    destruct (terminateSimulation (eventInfo s0)); [lra|].
    destruct Hwhy as [Hw|Hw]; [discriminate|exact Hw]. }
  unfold fmuSimulate. rewrite Hp.
  assert (Hl : simulation_loop fmiWarning fmu fuel tEnd' h s0 = Some (Next s0))
    by (destruct fuel; cbn [simulation_loop]; rewrite Hg; reflexivity).
  rewrite Hl. split; [reflexivity|].
  unfold cleanup. cbn [file with_instanceFreed].
  destruct Hfile as [Hf|Hf]; rewrite Hf; cbn; rewrite ?Hf; auto.
Qed.

(** X11.  A failing [initialize].  Once the instance exists, the memory is
    allocated, the result file is open and the first [setTime] has
    succeeded, the loop is entered whatever [initialize] answers: an
    error of [initialize] is reported and nothing more.  The loop works
    on the [eventInfo] that [initialize] left. *)
Theorem initialize_failure_is_not_fatal (tEnd : Q) (loggingOn : bool)
        (name : option string) (c c1 : C) (f : option (list Row))
        (fmiFlag : fmiStatus) :
  instantiateModel fmu loggingOn = Some c ->
  calloc_ok = true ->
  open_result_file fopen_ok name = Some f ->
  setTime fmu c t0 = (fmiFlag, c1) ->
  (fmiFlag <= fmiWarning)%Z ->
  exists tEnd' s0,
    prepare fmiWarning fmu calloc_ok fopen_ok tEnd loggingOn name
    = inr (tEnd', s0) /\
    eventInfo s0 = snd (initialize fmu c1 false t0) /\
    errlog s0 =
    if (fmiWarning <? fst (fst (initialize fmu c1 false t0)))%Z
    then ["could not initialize model"%string] else [].
Proof.
  intros Hi Ha Hf Hs Hflag.
  unfold prepare, output, fmuError, allocated.
  rewrite Hi, Ha, Hf. cbn [negb comp with_simtime with_file].
  rewrite Hs.
  replace (fmiWarning <? fmiFlag)%Z with false
    by (symmetry; apply Z.ltb_ge; exact Hflag).
  cbn [comp with_comp].
  destruct (initialize fmu c1 false t0) as [[fmiFlag2 c2] ev].
  cbn [fst snd].
  do 2 eexists. split; [reflexivity|].
  destruct f; destruct (fmiWarning <? fmiFlag2)%Z; cbn; split; reflexivity.
Qed.

(** X12.  Failures before the loop.  When the function returns before its
    loop, it does so without any pass, whatever the number of passes
    allowed, and never with success.  It has then written no row, and it
    has freed and closed nothing, the result file included if it was
    opened.  This happens only when the instance cannot be created, the
    memory cannot be allocated, the result file cannot be opened, or the
    first [setTime] reports an error. *)
Theorem failure_before_the_loop (tEnd h : Q) (loggingOn : bool)
        (separator : ascii) (name : option string) (r : Result C) :
  prepare fmiWarning fmu calloc_ok fopen_ok tEnd loggingOn name = inl r ->
  (forall fuel,
      fmuSimulate fmiWarning fmu calloc_ok fopen_ok fuel tEnd h loggingOn
                  separator name = Some r) /\
  (r = NoInstance \/
   exists e s,
     r = Returned e s /\ e <> Success /\ nSteps s = 0%Z /\
     (file s = None \/ file s = Some []) /\
     instanceFreed s = false /\ fileClosed s = false) /\
  (instantiateModel fmu loggingOn = None \/
   calloc_ok = false \/
   open_result_file fopen_ok name = None \/
   exists c, instantiateModel fmu loggingOn = Some c /\
             (fmiWarning < fst (setTime fmu c t0))%Z).
Proof.
  intros Hp. split.
  - intros fuel. unfold fmuSimulate. rewrite Hp. reflexivity.
  - revert Hp. unfold prepare, output, fmuError, allocated.
    destruct (instantiateModel fmu loggingOn) as [c|];
      [|intros [= <-]; split; [left; reflexivity | left; reflexivity]].
    destruct calloc_ok; cbn [negb].
    + destruct (open_result_file fopen_ok name) as [f|] eqn:Ef.
      * assert (Hf : f = None \/ f = Some []).
        { revert Ef. unfold open_result_file.
          destruct name as [n|]; [|intros [= <-]; left; reflexivity].
          destruct (String.eqb n "-"); [intros [= <-]; right; reflexivity|].
          destruct (fopen_ok n);
            [intros [= <-]; right; reflexivity|discriminate]. }
        cbn [comp with_simtime with_file].
        destruct (setTime fmu c t0) as [fmiFlag c1] eqn:Es.
        destruct (fmiWarning <? fmiFlag)%Z eqn:El.
        -- intros [= <-]. split.
           ++ right. do 2 eexists. split; [reflexivity|]. cbn.
              repeat split; auto. discriminate.
           ++ right. right. right. exists c. split; [reflexivity|].
              rewrite Es. cbn [fst]. apply Z.ltb_lt. exact El.
        -- cbn [comp with_comp].
           destruct (initialize fmu c1 false t0) as [[fmiFlag2 c2] ev].
           discriminate.
      * intros [= <-]. split.
        -- right. do 2 eexists. split; [reflexivity|]. cbn.
           repeat split; auto. discriminate.
        -- right. right. left. reflexivity.
    + intros [= <-]. split.
      * right. do 2 eexists. split; [reflexivity|]. cbn.
        repeat split; auto. discriminate.
      * right. left. reflexivity.
Qed.

(** ** The statistics and the rows of a run *)

(** However a pass ends, it adds at most one to each event counter. *)
Lemma loop_body_counters_grow (tEnd h : Q) (s : Sim C) :
  let s' := state (loop_body fmiWarning fmu tEnd h s) in
  (nTimeEvents s <= nTimeEvents s' <= nTimeEvents s + 1)%Z /\
  (nStateEvents s <= nStateEvents s' <= nStateEvents s + 1)%Z /\
  (nStepEvents s <= nStepEvents s' <= nStepEvents s + 1)%Z.
Proof.
  cbv zeta. rewrite loop_body_events.
  pose proof (before_events_keeps_counters tEnd h s) as K.
  destruct (before_events fmiWarning fmu tEnd h s) as [s1|s1|m s1] eqn:E;
    cbn [bind state] in *; unfold event_counters in K;
    try (injection K as -> -> ->; lia).
  injection K as K1 K2 K3.
  pose proof (handle_events_counters s1) as Hh.
  unfold event_counters in Hh.
  assert (Hf : event_counters
                 (state (handle_events fmiWarning fmu s1 >>= finish_step))
               = event_counters (state (handle_events fmiWarning fmu s1))).
  { destruct (handle_events fmiWarning fmu s1) as [s2|s2|m s2];
      cbn [bind state]; [apply finish_keeps_counters | reflexivity..]. }
  unfold event_counters in Hf. rewrite Hh in Hf.
  injection Hf as -> -> ->. rewrite K1, K2, K3.
  destruct (timeEvent s1), (stateEvent s1), (stepEvent s1);
    cbn [Z.b2z]; lia.
Qed.

(** X13.  The statistics.  At every loop test of a run, each of the three
    event counters lies between 0 and the number of steps counted.  When
    the loop has ended, however it ended, each lies between 0 and the
    number of steps plus one: the pass that is left by [break] or by an
    error counts its events but not its step. *)
Theorem event_counters_within_steps (tEnd h : Q) (loggingOn : bool)
        (name : option string) (tEnd' : Q) (s0 : Sim C) :
  prepare fmiWarning fmu calloc_ok fopen_ok tEnd loggingOn name
  = inr (tEnd', s0) ->
  (forall n s,
      at_loop_test fmiWarning fmu tEnd' h s0 n s ->
      (0 <= nTimeEvents s <= nSteps s)%Z /\
      (0 <= nStateEvents s <= nSteps s)%Z /\
      (0 <= nStepEvents s <= nSteps s)%Z) /\
  (forall fuel o,
      simulation_loop fmiWarning fmu fuel tEnd' h s0 = Some o ->
      (0 <= nTimeEvents (state o) <= nSteps (state o) + 1)%Z /\
      (0 <= nStateEvents (state o) <= nSteps (state o) + 1)%Z /\
      (0 <= nStepEvents (state o) <= nSteps (state o) + 1)%Z).
Proof.
  intros Hp.
  destruct (prepare_entry _ _ _ _ _ Hp)
    as (_ & _ & _ & _ & _ & Hn0 & Hc0 & _).
  unfold event_counters in Hc0. injection Hc0 as T0 S0 P0.
  assert (Hrun : forall n s,
             at_loop_test fmiWarning fmu tEnd' h s0 n s ->
             (0 <= nTimeEvents s <= nSteps s)%Z /\
             (0 <= nStateEvents s <= nSteps s)%Z /\
             (0 <= nStepEvents s <= nSteps s)%Z).
  { intros n s Hr. induction Hr as [|n s1 s2 Hr IH Hg Hb].
    - lia.
    - pose proof (loop_body_counters_grow tEnd' h s1) as G.
      rewrite Hb in G. cbv zeta in G. cbn [state] in G.
      apply loop_body_Next_sink in Hb. destruct Hb as [_ Hn]. lia. }
  split; [exact Hrun|].
  intros fuel o Hl. apply simulation_loop_ends in Hl.
  destruct Hl as (n & s1 & Hr & Hend).
  specialize (Hrun n s1 Hr).
  destruct Hend as [(-> & _)|(_ & <- & Hnot)]; cbn [state].
  - lia.
  - pose proof (loop_body_counters_grow tEnd' h s1) as G. cbv zeta in G.
    pose proof (loop_body_left_sink tEnd' h s1 Hnot) as K.
    unfold sink in K. injection K as _ K. lia.
Qed.

Lemma row_times_app (rows : list Row) (t : Q) :
  row_times (rows ++ [Values t]) = row_times rows ++ [t].
Proof.
  induction rows as [|[|u] rows IH]; cbn [row_times app].
  - reflexivity.
  - exact IH.
  - rewrite IH. reflexivity.
Qed.

Lemma ascending_app (l : list Q) (t : Q) :
  ascending l -> (forall u, In u l -> u <= t) -> ascending (l ++ [t]).
Proof.
  induction l as [|a [|b l] IH]; intros Ha Hle.
  - exact I.
  - cbn. split; [apply Hle; left; reflexivity | exact I].
  - destruct Ha as [Hab Ha]. split; [exact Hab|].
    apply (IH Ha). intros u Hu. apply Hle. right. exact Hu.
Qed.

(** X14.  The order of the rows.  With a step size that is not negative and
    no pending time event overdue at any loop test, the rows of values
    are written in the order of their times: no row is stamped with an
    earlier time than the row before it, and none with a later time than
    the current one. *)
Theorem rows_in_time_order (tEnd h : Q) (loggingOn : bool)
        (name : option string) (tEnd' : Q) (s0 s : Sim C) (n : nat)
        (rows : list Row) :
  0 <= h ->
  prepare fmiWarning fmu calloc_ok fopen_ok tEnd loggingOn name
  = inr (tEnd', s0) ->
  (forall k s1,
      at_loop_test fmiWarning fmu tEnd' h s0 k s1 ->
      upcomingTimeEvent (eventInfo s1) = true ->
      simtime s1 <= nextEventTime (eventInfo s1)) ->
  at_loop_test fmiWarning fmu tEnd' h s0 n s ->
  file s = Some rows ->
  ascending (row_times rows) /\
  forall t, In t (row_times rows) -> t <= simtime s.
Proof.
  intros Hh Hp Hev Hr. revert rows.
  induction Hr as [|n s1 s2 Hr IH Hg Hb]; intros rows Hf.
  - destruct (prepare_entry _ _ _ _ _ Hp)
      as (Ht0 & _ & _ & _ & _ & _ & _ & Hfile).
    destruct Hfile as [Hfile|Hfile]; rewrite Hfile in Hf; [discriminate|].
    injection Hf as <-. cbn [row_times ascending]. split; [exact I|].
    intros t [<-|[]]. rewrite Ht0. lra.
  - assert (Hfw : simtime s1 <= simtime s2).
    { apply Qltb_lt in Hg.
      destruct (loop_body_simtime tEnd' h s1) as [E|E];
        rewrite Hb in E; cbn [state] in E; rewrite E; [lra|].
      apply next_time_forward; [exact Hh | exact Hg | exact (Hev n s1 Hr)]. }
    apply loop_body_Next_sink in Hb. destruct Hb as [Hf2 _].
    rewrite Hf2 in Hf.
    destruct (file s1) as [rows1|]; [|discriminate].
    cbn [option_map] in Hf. injection Hf as <-.
    destruct (IH rows1 eq_refl) as [Hasc Hle].
    unfold outputRow. rewrite row_times_app. split.
    + apply ascending_app; [exact Hasc|].
      intros u Hu. specialize (Hle u Hu). lra.
    + intros t Ht. apply in_app_or in Ht. destruct Ht as [Ht|[<-|[]]].
      * specialize (Hle t Ht). lra.
      * lra.
Qed.

(** ** State events from one pass to the next *)

(** X16.  State events between samples.  In a pass that starts with arrays
    of [nz] entries, so in any pass after the first, the state-event flag
    is set exactly when some indicator sampled in this pass and the same
    indicator as the pass found it, sampled in the pass before, have a
    negative product; the state event is then counted once. *)
Theorem state_event_between_samples (tEnd h : Q) (s s' : Sim C) :
  length (z s) = nz fmu ->
  length (prez s) = nz fmu ->
  passed (loop_body fmiWarning fmu tEnd h s) s' ->
  (stateEvent s' = true <->
   exists i, (i < nz fmu)%nat /\ nth i (z s) 0 * nth i (z s') 0 < 0) /\
  nStateEvents s' = (nStateEvents s + Z.b2z (stateEvent s'))%Z.
Proof.
  intros Hz Hpz H.
  pose proof (loop_body_passed_counters tEnd h s s' H) as Hc.
  unfold event_counters in Hc. injection Hc as _ Hc _.
  split; [|exact Hc].
  apply passed_indicators in H. destruct H as (Hprez & _ & Hflag).
  rewrite save_indicators_copy in Hprez by assumption.
  rewrite Hflag, Hprez. apply detectStateEvent_spec.
Qed.

Lemma at_loop_test_no_time_event (tEnd h : Q) (s0 s : Sim C) (n : nat) :
  never_announces_time_event fmu ->
  upcomingTimeEvent (eventInfo s0) = false ->
  at_loop_test fmiWarning fmu tEnd h s0 n s ->
  upcomingTimeEvent (eventInfo s) = false.
Proof.
  intros Hnever H0 Hr. induction Hr as [|n s1 s2 Hr IH Hg Hb].
  - exact H0.
  - apply (Next_no_time_event tEnd h s1 s2 Hnever IH). left. exact Hb.
Qed.

(** ** Runs without a result file *)

Lemma at_loop_test_no_file (tEnd h : Q) (s0 s : Sim C) (n : nat) :
  file s0 = None ->
  at_loop_test fmiWarning fmu tEnd h s0 n s -> file s = None.
Proof.
  intros H0 Hr. induction Hr as [|n s1 s2 Hr IH Hg Hb].
  - exact H0.
  - apply loop_body_Next_sink in Hb. destruct Hb as [-> _].
    rewrite IH. reflexivity.
Qed.

(** Without a result file name no file is ever written or closed. *)
Lemma fmuSimulate_no_file (fuel : nat) (tEnd h : Q) (loggingOn : bool)
      (separator : ascii) (e : Exit) (s : Sim C) :
  fmuSimulate fmiWarning fmu calloc_ok fopen_ok fuel tEnd h loggingOn
              separator None = Some (Returned e s) ->
  file s = None /\ fileClosed s = false.
Proof.
  unfold fmuSimulate.
  destruct (prepare fmiWarning fmu calloc_ok fopen_ok tEnd loggingOn None)
    as [r|[tEnd' s0]] eqn:Hp.
  - intros [= ->]. revert Hp.
    unfold prepare, open_result_file, output, fmuError, allocated.
    destruct (instantiateModel fmu loggingOn) as [c|]; [|discriminate].
    destruct (negb calloc_ok); [intros [= <- <-]; split; reflexivity|].
    cbn [comp with_simtime with_file].
    destruct (setTime fmu c t0) as [fmiFlag c1].
    destruct (fmiWarning <? fmiFlag)%Z;
      [intros [= <- <-]; split; reflexivity|].
    cbn [comp with_comp].
    destruct (initialize fmu c1 false t0) as [[fmiFlag2 c2] ev].
    discriminate.
  - assert (Hf0 : file s0 = None).
    { revert Hp.
      unfold prepare, open_result_file, output, fmuError, allocated.
      destruct (instantiateModel fmu loggingOn) as [c|]; [|discriminate].
      destruct (negb calloc_ok); [discriminate|].
      cbn [comp with_simtime with_file].
      destruct (setTime fmu c t0) as [fmiFlag c1].
      destruct (fmiWarning <? fmiFlag)%Z; [discriminate|].
      cbn [comp with_comp].
      destruct (initialize fmu c1 false t0) as [[fmiFlag2 c2] ev].
      destruct (fmiWarning <? fmiFlag2)%Z; intros [= <- <-]; reflexivity. }
    destruct (prepare_entry _ _ _ _ _ Hp) as (_ & _ & _ & _ & Hr0 & _).
    destruct (simulation_loop fmiWarning fmu fuel tEnd' h s0) as [o|] eqn:Hl;
      [|discriminate].
    pose proof (simulation_loop_resources _ _ _ _ _ Hl) as Kr.
    rewrite Hr0 in Kr. unfold resources in Kr. injection Kr as _ Kc.
    assert (Hfo : file (state o) = None).
    { apply simulation_loop_ends in Hl.
      destruct Hl as (n & s1 & Hr & Hend).
      pose proof (at_loop_test_no_file tEnd' h s0 s1 n Hf0 Hr) as H1.
      destruct Hend as [(-> & _)|(_ & <- & Hnot)]; [exact H1|].
      pose proof (loop_body_left_sink tEnd' h s1 Hnot) as K.
      unfold sink in K. injection K as K _. congruence. }
    assert (Hcl : file (cleanup (state o)) = None /\
                  fileClosed (cleanup (state o)) = false).
    { unfold cleanup. cbn [file with_instanceFreed]. rewrite Hfo.
      cbn. split; assumption. }
    destruct o as [s'|s'|m s']; cbn [state] in *; intros [= <- <-];
      [exact Hcl | exact Hcl | split; assumption].
Qed.

End Properties.

(** * The command line and [main] *)

Section MainProperties.
Context {C : Type}.
Variable fmiWarning : fmiStatus.
Variable sscanf_lf : string -> option Q.
Variable sscanf_d : string -> option Z.
Variable strdup_ok : bool.
Variable mkdtemp : string -> option string.
Variable fmuUnzip : string -> string -> bool.
Variable parse : string -> option ModelDescription.
Variable getModelIdentifier : ModelDescription -> string.
Variable fmuLoadDll : string -> option (FMU C).
Variable calloc_ok : bool.
Variable fopen_ok : string -> bool.

(** X17.  The accepted command line.  When the arguments are accepted there
    is an FMU file name; the end time and the step size are whatever
    [sscanf] read, unchecked (zero and negative numbers included), or 1
    and 1/10 when absent; the logging flag is 0 or 1; the separator is
    the single character of its argument, or [;]; the result file is the
    one named, none when the name is empty, and the standard output when
    the argument is absent; arguments after the sixth only raise a
    warning. *)
Theorem accepted_command_line (argv : list string) (a : CommandLine)
        (warned : bool) :
  parse_arguments sscanf_lf sscanf_d argv = Accepted a warned ->
  let argc := length argv in
  (1 < argc)%nat /\ arg_fmuFileName a = arg argv 1 /\
  (if (2 <? argc)%nat then sscanf_lf (arg argv 2) = Some (arg_tEnd a)
   else arg_tEnd a = 1) /\
  (if (3 <? argc)%nat then sscanf_lf (arg argv 3) = Some (arg_h a)
   else arg_h a = 1#10) /\
  (arg_loggingOn a = 0%Z \/ arg_loggingOn a = 1%Z) /\
  (if (4 <? argc)%nat then sscanf_d (arg argv 4) = Some (arg_loggingOn a)
   else arg_loggingOn a = 0%Z) /\
  (if (5 <? argc)%nat then arg argv 5 = String (arg_separator a) EmptyString
   else arg_separator a = ";"%char) /\
  (if (6 <? argc)%nat
   then (arg argv 6 = ""%string /\ arg_resultFileName a = None) \/
        (arg argv 6 <> ""%string /\
         arg_resultFileName a = Some (arg argv 6))
   else arg_resultFileName a = Some "-"%string) /\
  warned = (7 <? argc)%nat.
Proof.
  unfold parse_arguments. cbv zeta.
  destruct (1 <? length argv)%nat eqn:E1; cbn [negb]; [|discriminate].
  apply Nat.ltb_lt in E1.
  destruct (2 <? length argv)%nat;
    [destruct (sscanf_lf (arg argv 2)) as [tEnd|]; [|discriminate]|];
    (destruct (3 <? length argv)%nat;
     [destruct (sscanf_lf (arg argv 3)) as [h|]; [|discriminate]|]);
    (destruct (4 <? length argv)%nat;
     [destruct (sscanf_d (arg argv 4)) as [l|]; [|discriminate];
      destruct (l <? 0)%Z eqn:L0; [discriminate|];
      destruct (1 <? l)%Z eqn:L1; [discriminate|];
      apply Z.ltb_ge in L0; apply Z.ltb_ge in L1; cbn [orb]|]);
    (destruct (5 <? length argv)%nat;
     [destruct (arg argv 5) as [|c [|? ?]]; try discriminate|]);
    (destruct (6 <? length argv)%nat;
     [destruct (arg argv 6) as [|? ?] eqn:E6; cbn [String.length Nat.eqb]|]);
    intros [= <- <-]; cbn;
    repeat split; auto; try lia;
    try (left; split; [reflexivity|reflexivity]);
    try (right; split; [discriminate|reflexivity]).
Qed.

Lemma arg_app (argv extra : list string) (i : nat) :
  (i < length argv)%nat -> arg (argv ++ extra) i = arg argv i.
Proof. intros H. unfold arg. apply app_nth1. exact H. Qed.

Lemma ltb_app (argv extra : list string) (i : nat) :
  (i < length argv)%nat ->
  (i <? length (argv ++ extra))%nat = (i <? length argv)%nat.
Proof.
  intros H. rewrite length_app.
  transitivity true; [|symmetry]; apply Nat.ltb_lt; lia.
Qed.

(** Arguments after the seventh entry of [argv] change nothing but the
    warning. *)
Lemma parse_arguments_app (argv extra : list string) :
  (7 <= length argv)%nat ->
  match parse_arguments sscanf_lf sscanf_d argv with
  | Rejected e =>
      parse_arguments sscanf_lf sscanf_d (argv ++ extra) = Rejected e
  | Accepted a _ =>
      parse_arguments sscanf_lf sscanf_d (argv ++ extra)
      = Accepted a (7 <? length (argv ++ extra))%nat
  end.
Proof.
  intros H. unfold parse_arguments. cbv zeta.
  rewrite !ltb_app, !arg_app by lia.
  destruct (1 <? length argv)%nat; cbn [negb]; [|reflexivity].
  destruct (if (2 <? length argv)%nat then _ else _); [|reflexivity].
  destruct (if (3 <? length argv)%nat then _ else _); [|reflexivity].
  destruct (if (4 <? length argv)%nat then _ else _); [|reflexivity].
  destruct (if (5 <? length argv)%nat then _ else _); reflexivity.
Qed.

(** X18.  More arguments than are used.  What comes after the result file
    name on the command line has no effect on the run: [main] ends in
    the same way, with the same simulation, as without it. *)
Theorem extra_arguments_are_ignored (fuel : nat) (argv extra : list string) :
  (7 <= length argv)%nat ->
  main fmiWarning sscanf_lf sscanf_d strdup_ok mkdtemp fmuUnzip parse
       getModelIdentifier fmuLoadDll calloc_ok fopen_ok fuel (argv ++ extra)
  = main fmiWarning sscanf_lf sscanf_d strdup_ok mkdtemp fmuUnzip parse
         getModelIdentifier fmuLoadDll calloc_ok fopen_ok fuel argv.
Proof.
  intros H. unfold main.
  pose proof (parse_arguments_app argv extra H) as P.
  destruct (parse_arguments sscanf_lf sscanf_d argv) as [e|a w];
    rewrite P; reflexivity.
Qed.

(** X19.  The exit status.  [main] does not look at what [fmuSimulate]
    returns.  Whenever the simulation was started, the temporary
    directory is removed afterwards and the exit status is success, also
    when the simulation returned with an error; when [main] ends before
    the simulation, because of its arguments or of the FMU, the status is
    not success and nothing is removed. *)
Theorem exit_status_ignores_the_simulation (fuel : nat) (argv : list string)
        (r : MainEnd C) :
  main fmiWarning sscanf_lf sscanf_d strdup_ok mkdtemp fmuUnzip parse
       getModelIdentifier fmuLoadDll calloc_ok fopen_ok fuel argv = Some r ->
  match simulation r with
  | Some _ =>
      exit_status r = EXIT_SUCCESS /\
      exists dir, mkdtemp "fmuTmpXXXXXX"%string = Some dir /\
                  system_calls r = [("rm -rf " ++ dir ++ "/")%string]
  | None => exit_status r <> EXIT_SUCCESS /\ system_calls r = []
  end.
Proof.
  unfold main.
  destruct (parse_arguments sscanf_lf sscanf_d argv) as [e|a w];
    [intros [= <-]; cbn; split; [discriminate|reflexivity]|].
  destruct strdup_ok; cbn [negb];
    [|intros [= <-]; cbn; split; [discriminate|reflexivity]].
  destruct (mkdtemp "fmuTmpXXXXXX"%string) as [dir|];
    [|intros [= <-]; cbn; split; [discriminate|reflexivity]].
  destruct (fmuUnzip _ _); cbn [negb];
    [|intros [= <-]; cbn; split; [discriminate|reflexivity]].
  destruct (parse _) as [md|];
    [|intros [= <-]; cbn; split; [discriminate|reflexivity]].
  destruct (fmuLoadDll _) as [loaded|];
    [|intros [= <-]; cbn; split; [discriminate|reflexivity]].
  destruct (fmuSimulate _ _ _ _ _ _ _ _ _ _) as [res|]; [|discriminate].
  intros [= <-]. cbn. split; [reflexivity|].
  exists dir. split; reflexivity.
Qed.

(** X20.  No output.  With an empty result file name on the command line
    the simulation gets no file: however it returns, it has written no
    row and closed no file. *)
Theorem empty_result_name_means_no_output (fuel : nat) (argv : list string)
        (r : MainEnd C) (e : Exit) (s : Sim C) :
  (6 < length argv)%nat ->
  arg argv 6 = ""%string ->
  main fmiWarning sscanf_lf sscanf_d strdup_ok mkdtemp fmuUnzip parse
       getModelIdentifier fmuLoadDll calloc_ok fopen_ok fuel argv = Some r ->
  simulation r = Some (Returned e s) ->
  file s = None /\ fileClosed s = false.
Proof.
  intros Hargc Hempty. unfold main.
  destruct (parse_arguments sscanf_lf sscanf_d argv) as [err|a w] eqn:P;
    [intros [= <-]; discriminate|].
  assert (Hname : arg_resultFileName a = None).
  { revert P. unfold parse_arguments. cbv zeta.
    apply Nat.ltb_lt in Hargc. rewrite Hargc, Hempty.
    destruct (negb _); [discriminate|].
    destruct (if (2 <? length argv)%nat then _ else _); [|discriminate].
    destruct (if (3 <? length argv)%nat then _ else _); [|discriminate].
    destruct (if (4 <? length argv)%nat then _ else _); [|discriminate].
    destruct (if (5 <? length argv)%nat then _ else _); [|discriminate].
    intros [= <- _]. reflexivity. }
  rewrite Hname.
  destruct strdup_ok; cbn [negb]; [|intros [= <-]; discriminate].
  destruct (mkdtemp _) as [dir|]; [|intros [= <-]; discriminate].
  destruct (fmuUnzip _ _); cbn [negb]; [|intros [= <-]; discriminate].
  destruct (parse _) as [md|]; [|intros [= <-]; discriminate].
  destruct (fmuLoadDll _) as [loaded|]; [|intros [= <-]; discriminate].
  destruct (fmuSimulate _ _ _ _ _ _ _ _ _ _) as [res|] eqn:Hs;
    [|discriminate].
  intros [= <-]. cbn [simulation]. intros [= ->].
  exact (fmuSimulate_no_file _ _ _ _ _ _ _ _ _ _ _ Hs).
Qed.

End MainProperties.

(** ** Instances on the test doubles *)

(** A run of the quiet model to [tEnd = 1] with [h = 3/10]: four steps, the
    last one shortened to end at 1; the state grows by 2 per time unit. *)
Example quiet_run :
  exists s,
    fmuSimulate warning (scripted quiet) true (fun _ => true)
                10 1 (3#10) false ";"%char (Some "-"%string)
    = Some (Returned Success s) /\
    nSteps s = 4%Z /\
    map (fun r => match r with Header => None | Values t => Some (Qred t) end)
        (match file s with Some rows => rows | None => [] end)
    = [None; Some 0; Some (3#10); Some (3#5); Some (9#10); Some 1] /\
    Qred (dt s) = 1#10 /\
    map Qred (x s) = [2] /\
    instanceFreed s = true /\ fileClosed s = true.
Proof.
  eexists. split; [vm_compute; reflexivity|].
  repeat split; vm_compute; reflexivity.
Qed.

Lemma time_event_clamps_step_witness :
  let s := snd (entry timed 1) in
  next_time 1 (3#10) (eventInfo s) (simtime s) = (1#4, (1#4) - simtime s, true) /\
  forall s',
    loop_body warning (scripted timed) 1 (3#10) s = Next s' \/
    loop_body warning (scripted timed) 1 (3#10) s = Break s' ->
    simtime s' = 1#4 /\ dt s' = (1#4) - simtime s /\ timeEvent s' = true /\
    nTimeEvents s' = (nTimeEvents s + 1)%Z /\
    (loop_body warning (scripted timed) 1 (3#10) s = Next s' ->
     file s' = option_map (outputRow (1#4) false) (file s)).
Proof.
  apply (time_event_clamps_step warning (scripted timed) 1 (3#10) (1#4)
           (snd (entry timed 1)));
    vm_compute; reflexivity.
Defined.

Lemma state_event_iff_sign_change_witness :
  detectStateEvent 2 [1; 0] [0; 0] = false /\
  detectStateEvent 2 [1; -1] [-(1#2); -(1#2)] = true.
Proof.
  destruct (state_event_iff_sign_change warning (scripted quiet)
              2 [1; 0] [0; 0]) as (_ & Hzero & _).
  destruct (state_event_iff_sign_change warning (scripted quiet)
              2 [1; -1] [-(1#2); -(1#2)]) as (Hiff & _).
  split.
  - apply Hzero. intros [|[|i]] Hi.
    + left. split; reflexivity.
    + right. split; reflexivity.
    + lia.
  - apply Hiff. exists O. split; [lia | reflexivity].
Defined.

Lemma euler_step_witness :
  length [1; 3] = 2%nat /\
  nth 1 (euler 2 [1; 3] [2; 4] (1#2)) 0 = nth 1 [1; 3] 0 + (1#2) * nth 1 [2; 4] 0.
Proof.
  split; [reflexivity|].
  apply (euler_step warning (scripted quiet) 2 [1; 3] [2; 4] (1#2));
    [reflexivity | lia].
Defined.

(** The model asks to terminate in the first pass: the pass advances the
    time to 3/10 and is left by [break]; no row is written for it. *)
Lemma no_row_for_terminating_pass :
  let s0 := snd (entry terminating 1) in
  exists s1,
    loop_body warning (scripted terminating) 1 (3#10) s0 = Break s1 /\
    terminateSimulation (eventInfo s1) = true /\
    simtime s1 = 3#10 /\
    file s0 = Some [Header; Values 0] /\
    file s1 = Some [Header; Values 0] /\
    exists s,
      fmuSimulate warning (scripted terminating) true (fun _ => true)
                  10 1 (3#10) false ";"%char (Some "-"%string)
      = Some (Returned Success s) /\
      file s = Some [Header; Values 0] /\ nSteps s = 0%Z.
Proof.
  cbv zeta. eexists. split; [vm_compute; reflexivity|].
  repeat split.
  eexists. split; [vm_compute; reflexivity|].
  split; reflexivity.
Qed.

Lemma rows_one_per_completed_pass_witness :
  let p := entry quiet 1 in
  [Header; Values 0] = [Header; Values t0] /\
  (forall s s' rows,
      loop_body warning (scripted quiet) (fst p) (3#10) s = Next s' ->
      file s = Some rows ->
      file s' = Some (rows ++ [Values (simtime s')]) /\
      nSteps s' = (nSteps s + 1)%Z) /\
  (forall s,
      (forall s', loop_body warning (scripted quiet) (fst p) (3#10) s
                  <> Next s') ->
      file (state (loop_body warning (scripted quiet) (fst p) (3#10) s))
      = file s /\
      nSteps (state (loop_body warning (scripted quiet) (fst p) (3#10) s))
      = nSteps s) /\
  (forall n s,
      at_loop_test warning (scripted quiet) (fst p) (3#10) (snd p) n s ->
      nSteps s = Z.of_nat n /\
      exists ts, length ts = n /\
                 file s = Some ([Header; Values 0] ++ map Values ts)) /\
  (forall fuel o,
      simulation_loop warning (scripted quiet) fuel (fst p) (3#10) (snd p)
      = Some o ->
      exists ts,
        nSteps (state o) = Z.of_nat (length ts) /\
        file (state o) = Some ([Header; Values 0] ++ map Values ts)).
Proof.
  apply (rows_one_per_completed_pass warning (scripted quiet) true
           (fun _ => true) 1 (3#10) false (Some "-"%string)
           (fst (entry quiet 1)) (snd (entry quiet 1)) [Header; Values 0]);
    vm_compute; reflexivity.
Defined.

(** [getContinuousStates] fails in the first pass: the function returns
    with the instance not freed and the result file still open. *)
Lemma no_cleanup_after_error :
  exists s,
    fmuSimulate warning (scripted getStates_fails) true (fun _ => true)
                10 1 (3#10) false ";"%char (Some "result.csv"%string)
    = Some (Returned (Error "could not retrieve states") s) /\
    file s = Some [Header; Values 0] /\
    instanceFreed s = false /\ fileClosed s = false.
Proof.
  eexists. split; [vm_compute; reflexivity|].
  repeat split.
Qed.

Lemma cleanup_unless_aborted_witness :
  match loop_end quiet 10 1 (3#10) with
  | Next s' | Break s' =>
      fmuSimulate warning (scripted quiet) true (fun _ => true)
                  10 1 (3#10) false ";"%char (Some "-"%string)
      = Some (Returned Success (cleanup s')) /\
      instanceFreed (cleanup s') = true /\
      file (cleanup s') = file s' /\
      (file s' <> None -> fileClosed (cleanup s') = true)
  | Abort msg s' =>
      fmuSimulate warning (scripted quiet) true (fun _ => true)
                  10 1 (3#10) false ";"%char (Some "-"%string)
      = Some (Returned (Error msg) s') /\
      instanceFreed s' = false /\ fileClosed s' = false
  end.
Proof.
  apply (cleanup_unless_aborted warning (scripted quiet) true (fun _ => true)
           10 1 (3#10) false ";"%char (Some "-"%string)
           (fst (entry quiet 1)) (snd (entry quiet 1)));
    vm_compute; reflexivity.
Defined.

(** The first indicator sampled is 1; it is compared with the 0 of the
    allocation.  [s1] is also the state in which the second pass starts:
    there the previous indicators are still the zeros, not the sample of
    the first pass. *)
Lemma first_comparison_against_zeros :
  let s0 := snd (entry quiet 1) in
  exists s1,
    loop_body warning (scripted quiet) 1 (3#10) s0 = Next s1 /\
    z s1 = [1] /\ prez s1 = [0] /\ prez s1 <> z s1.
Proof.
  cbv zeta. eexists. split; [vm_compute; reflexivity|].
  repeat split. cbn. discriminate.
Qed.

Lemma previous_indicators_witness :
  let p := entry quiet 1 in
  (forall s1,
      passed (loop_body warning (scripted quiet) (fst p) (3#10) (snd p)) s1 ->
      prez s1 = repeat 0 (nz (scripted quiet))) /\
  (forall s s',
      length (z s) = nz (scripted quiet) ->
      length (prez s) = nz (scripted quiet) ->
      passed (loop_body warning (scripted quiet) (fst p) (3#10) s) s' ->
      prez s' = z s /\
      exists fmiFlag c c',
        getEventIndicators (scripted quiet) c (z s) (nz (scripted quiet))
        = (fmiFlag, c', z s')).
Proof.
  apply (previous_indicators warning (scripted quiet) true (fun _ => true)
           1 (3#10) false (Some "-"%string)
           (fst (entry quiet 1)) (snd (entry quiet 1))).
  vm_compute; reflexivity.
Defined.

(** A time event announced for [-1] when the time is 0: the pass moves
    the time back to [-1]; and as the model then asks to terminate, the
    pass is left by [break] and the step is not counted. *)
Lemma time_moves_back_on_overdue_event :
  let s0 := snd (entry stale_event 1) in
  exists s1,
    loop_body warning (scripted stale_event) 1 (3#10) s0 = Break s1 /\
    simtime s0 = 0 /\ simtime s1 = -1 /\ simtime s1 < simtime s0 /\
    nSteps s1 = nSteps s0.
Proof.
  cbv zeta. eexists. split; [vm_compute; reflexivity|].
  repeat split.
Qed.

Lemma time_goes_forward_witness :
  0 <= 3#10 /\
  forall s s' : Sim (nat * list Q),
    loop_body warning (scripted quiet) 1 (3#10) s = Next s' ->
    nSteps s' = (nSteps s + 1)%Z.
Proof.
  split; [lra|].
  apply (time_goes_forward warning (scripted quiet) 1 (3#10)). lra.
Defined.



Lemma first_pass_detects_no_state_event_witness :
  let s0 := snd (entry quiet 1) in
  let s1 := state (loop_body warning (scripted quiet) 1 (3#10) s0) in
  (0 < nz (scripted quiet))%nat /\
  z s1 = [1] /\
  nStateEvents s1 = 0%Z /\
  prez s1 = repeat 0 (nz (scripted quiet)) /\
  (forall i, nth i (prez s1) 0 * nth i (z s1) 0 == 0) /\
  stateEvent s1 = false.
Proof.
  cbv zeta.
  assert (Hnz : (0 < nz (scripted quiet))%nat) by (cbn; lia).
  destruct (first_pass_detects_no_state_event warning (scripted quiet) true
              (fun _ => true) 1 (3#10) false (Some "-"%string)
              (fst (entry quiet 1)) (snd (entry quiet 1)) eq_refl Hnz)
    as [Hcount Hpass].
  split; [exact Hnz|]. split; [reflexivity|]. split; [exact Hcount|].
  apply Hpass. left. vm_compute; reflexivity.
Defined.

(** ** More instances on the test doubles *)

Ltac closed_fact :=
  vm_compute; first [reflexivity | discriminate | intros; discriminate].

Lemma scripted_no_errors (d : Script) :
  (script_getStates d <= warning)%Z -> no_errors warning (scripted d).
Proof.
  intros H. unfold no_errors, scripted, warning; cbn.
  repeat split; intros; try exact H; lia.
Qed.

Lemma scripted_never_asks (d : Script) :
  terminateSimulation (script_eventUpdate d) = false ->
  never_asks_to_terminate (scripted d).
Proof. intros H c b ev. exact H. Qed.

Lemma scripted_never_announces (d : Script) :
  upcomingTimeEvent (script_eventUpdate d) = false ->
  never_announces_time_event (scripted d).
Proof. intros H c b ev. exact H. Qed.

Lemma pass_time_and_dt_witness :
  let s := snd (entry quiet 1) in
  let s' := state (loop_body warning (scripted quiet) 1 (3#10) s) in
  loop_body warning (scripted quiet) 1 (3#10) s = Next s' /\
  dt s' = simtime s' - simtime s /\
  simtime s' <= simtime s + (3#10) /\
  simtime s' <= 1.
Proof.
  cbv zeta.
  assert (H : loop_body warning (scripted quiet) 1 (3#10) (snd (entry quiet 1))
              = Next (state (loop_body warning (scripted quiet) 1 (3#10)
                               (snd (entry quiet 1)))))
    by closed_fact.
  split; [exact H|].
  apply (pass_time_and_dt warning (scripted quiet) 1 (3#10)).
  left. exact H.
Defined.

Lemma last_step_lands_on_end_witness :
  let s := pass_of quiet 3 in
  let s' := pass_of quiet 4 in
  simtime s == 9#10 /\
  simtime s' == 1 /\ timeEvent s' = false /\
  forall fuel,
    simulation_loop warning (scripted quiet) fuel 1 (3#10) s'
    = Some (Next s').
Proof.
  cbv zeta. split; [closed_fact|].
  apply (last_step_lands_on_end warning (scripted quiet) 1 (3#10)
           (pass_of quiet 3) (pass_of quiet 4)).
  - closed_fact.
  - intros H. exfalso. vm_compute in H. discriminate H.
  - closed_fact.
Defined.

Lemma time_event_on_the_grid_witness :
  let s0 := pass_of on_grid 0 in
  let s1 := pass_of on_grid 1 in
  let s2 := pass_of on_grid 2 in
  nextEventTime (eventInfo s0) = 3#10 /\
  (timeEvent s1 = false /\ simtime s1 = min (simtime s0 + (3#10)) 1) /\
  (timeEvent s2 = true /\ dt s2 == 0 /\ simtime s2 == simtime s1).
Proof.
  cbv zeta. split; [closed_fact|]. split.
  - apply (time_event_on_the_grid warning (scripted on_grid) 1 (3#10)
             (pass_of on_grid 0) (pass_of on_grid 1)).
    + left. closed_fact.
    + closed_fact.
  - apply (time_event_on_the_grid warning (scripted on_grid) 1 (3#10)
             (pass_of on_grid 1) (pass_of on_grid 2)).
    + left. closed_fact.
    + closed_fact.
    + closed_fact.
    + closed_fact.
    + closed_fact.
Defined.

Lemma events_of_a_pass_witness :
  let s := pass_of stepping 0 in
  let s' := pass_of stepping 1 in
  stepEvent s' = true /\
  nTimeEvents s' = (nTimeEvents s + Z.b2z (timeEvent s'))%Z /\
  nStateEvents s' = (nStateEvents s + Z.b2z (stateEvent s'))%Z /\
  nStepEvents s' = (nStepEvents s + Z.b2z (stepEvent s'))%Z /\
  (timeEvent s' || stateEvent s' || stepEvent s' = false ->
   eventInfo s' = eventInfo s /\
   loop_body warning (scripted stepping) 1 (3#10) s = Next s') /\
  (timeEvent s' || stateEvent s' || stepEvent s' = true ->
   (exists fmiFlag c c',
       eventUpdate (scripted stepping) c false (eventInfo s)
       = (fmiFlag, c', eventInfo s')) /\
   (loop_body warning (scripted stepping) 1 (3#10) s = Break s' <->
    terminateSimulation (eventInfo s') = true)).
Proof.
  cbv zeta. split; [closed_fact|].
  apply (events_of_a_pass warning (scripted stepping) 1 (3#10)
           (pass_of stepping 0) (pass_of stepping 1)).
  left. closed_fact.
Defined.

Lemma warnings_do_not_abort_witness :
  no_errors warning (scripted warns) /\
  exists s',
    passed (loop_body warning (scripted warns) 1 (3#10)
                      (snd (entry warns 1))) s'.
Proof.
  assert (H : no_errors warning (scripted warns))
    by (apply scripted_no_errors; closed_fact).
  split; [exact H|].
  exact (warnings_do_not_abort warning (scripted warns) 1 (3#10)
           (snd (entry warns 1)) H).
Defined.

Lemma abort_is_reported_witness :
  let s := snd (entry getStates_fails 1) in
  let s' := state (loop_body warning (scripted getStates_fails) 1 (3#10) s) in
  loop_body warning (scripted getStates_fails) 1 (3#10) s
  = Abort "could not retrieve states" s' /\
  In "could not retrieve states"%string abort_messages /\
  "could not retrieve states"%string <> "could not set time"%string /\
  (exists pre, errlog s' = pre ++ ["could not retrieve states"%string]) /\
  file s' = file s /\ nSteps s' = nSteps s.
Proof.
  cbv zeta.
  assert (H : loop_body warning (scripted getStates_fails) 1 (3#10)
                        (snd (entry getStates_fails 1))
              = Abort "could not retrieve states"
                      (state (loop_body warning (scripted getStates_fails)
                                        1 (3#10)
                                        (snd (entry getStates_fails 1)))))
    by closed_fact.
  split; [exact H|].
  exact (abort_is_reported warning (scripted getStates_fails) 1 (3#10)
           _ _ _ H).
Defined.

Lemma loop_never_ends_without_progress_witness :
  0 <= 0 /\
  forall fuel,
    simulation_loop warning (scripted quiet) fuel 1 0 (snd (entry quiet 1))
    = None.
Proof.
  split; [lra|].
  apply (loop_never_ends_without_progress warning (scripted quiet) 1 0).
  - lra.
  - apply scripted_no_errors. closed_fact.
  - apply scripted_never_asks. reflexivity.
  - apply scripted_never_announces. reflexivity.
  - closed_fact.
  - closed_fact.
Defined.

Lemma run_without_a_pass_witness :
  let s0 := snd (entry refuses 1) in
  terminateSimulation (eventInfo s0) = true /\
  forall fuel,
    fmuSimulate warning (scripted refuses) true (fun _ => true) fuel 1 (3#10)
                false ";"%char (Some "-"%string)
    = Some (Returned Success (cleanup s0)) /\
    nSteps (cleanup s0) = 0%Z /\
    (file (cleanup s0) = None \/
     file (cleanup s0) = Some [Header; Values t0] /\
     fileClosed (cleanup s0) = true) /\
    instanceFreed (cleanup s0) = true.
Proof.
  cbv zeta. split; [closed_fact|].
  apply (run_without_a_pass warning (scripted refuses) true (fun _ => true)
           1 (3#10) false ";"%char (Some "-"%string)
           (fst (entry refuses 1)) (snd (entry refuses 1))).
  - closed_fact.
  - left. closed_fact.
Defined.

Lemma initialize_failure_is_not_fatal_witness :
  (warning < fst (fst (initialize failing_initialize (1%nat, [0%Q]) false t0)))%Z /\
  exists tEnd' s0,
    prepare warning failing_initialize true (fun _ => true) 1 false None
    = inr (tEnd', s0) /\
    eventInfo s0 = snd (initialize failing_initialize (1%nat, [0%Q]) false t0) /\
    errlog s0 =
    if (warning <? fst (fst (initialize failing_initialize (1%nat, [0%Q])
                                        false t0)))%Z
    then ["could not initialize model"%string] else [].
Proof.
  split; [closed_fact|].
  apply (initialize_failure_is_not_fatal warning failing_initialize true
           (fun _ => true) 1 false None (O, [0]) (1%nat, [0%Q]) None ok);
    closed_fact.
Defined.

Lemma failure_before_the_loop_witness :
  let r := Returned Failure (allocated (scripted quiet) (O, [0])) in
  (forall fuel,
      fmuSimulate warning (scripted quiet) true (fun _ => false) fuel 1 (3#10)
                  false ";"%char (Some "out.csv"%string) = Some r) /\
  (r = NoInstance \/
   exists e s,
     r = Returned e s /\ e <> Success /\ nSteps s = 0%Z /\
     (file s = None \/ file s = Some []) /\
     instanceFreed s = false /\ fileClosed s = false) /\
  (instantiateModel (scripted quiet) false = None \/
   true = false \/
   open_result_file (fun _ => false) (Some "out.csv"%string) = None \/
   exists c, instantiateModel (scripted quiet) false = Some c /\
             (warning < fst (setTime (scripted quiet) c t0))%Z).
Proof.
  cbv zeta.
  apply (failure_before_the_loop warning (scripted quiet) true
           (fun _ => false) 1 (3#10) false ";"%char (Some "out.csv"%string)).
  closed_fact.
Defined.

Lemma event_counters_within_steps_witness :
  let p := entry stepping 1 in
  (forall n s,
      at_loop_test warning (scripted stepping) (fst p) (3#10) (snd p) n s ->
      (0 <= nTimeEvents s <= nSteps s)%Z /\
      (0 <= nStateEvents s <= nSteps s)%Z /\
      (0 <= nStepEvents s <= nSteps s)%Z) /\
  (forall fuel o,
      simulation_loop warning (scripted stepping) fuel (fst p) (3#10) (snd p)
      = Some o ->
      (0 <= nTimeEvents (state o) <= nSteps (state o) + 1)%Z /\
      (0 <= nStateEvents (state o) <= nSteps (state o) + 1)%Z /\
      (0 <= nStepEvents (state o) <= nSteps (state o) + 1)%Z).
Proof.
  apply (event_counters_within_steps warning (scripted stepping) true
           (fun _ => true) 1 (3#10) false (Some "-"%string)
           (fst (entry stepping 1)) (snd (entry stepping 1))).
  closed_fact.
Defined.

Lemma rows_in_time_order_witness :
  let rows := rows_of (pass_of quiet 2) in
  row_times rows = [0; 3#10; 60#100] /\
  ascending (row_times rows) /\
  forall t, In t (row_times rows) -> t <= simtime (pass_of quiet 2).
Proof.
  cbv zeta. split; [closed_fact|].
  apply (rows_in_time_order warning (scripted quiet) true (fun _ => true)
           1 (3#10) false (Some "-"%string)
           (fst (entry quiet 1)) (snd (entry quiet 1)) (pass_of quiet 2) 2).
  - lra.
  - closed_fact.
  - intros k s1 Hr Hup. exfalso.
    pose proof (at_loop_test_no_time_event warning (scripted quiet)
                  (fst (entry quiet 1)) (3#10) (snd (entry quiet 1)) s1 k
                  (scripted_never_announces quiet eq_refl)
                  ltac:(closed_fact) Hr) as Hno.
    congruence.
  - apply (at_next _ _ _ _ _ 1%nat (pass_of quiet 1)).
    + apply (at_next _ _ _ _ _ O (pass_of quiet 0)).
      * change (pass_of quiet 0) with (snd (entry quiet 1)). apply at_entry.
      * closed_fact.
      * closed_fact.
    + closed_fact.
    + closed_fact.
  - closed_fact.
Defined.

Lemma state_event_between_samples_witness :
  let s := crossing_pass 1 in
  let s' := crossing_pass 2 in
  z s = [4#10] /\ Qred (nth 0 (z s') 0) = -(1#5) /\
  (stateEvent s' = true <->
   exists i, (i < nz crossing)%nat /\ nth i (z s) 0 * nth i (z s') 0 < 0) /\
  nStateEvents s' = (nStateEvents s + Z.b2z (stateEvent s'))%Z.
Proof.
  cbv zeta. split; [closed_fact|]. split; [closed_fact|].
  apply (state_event_between_samples warning crossing 1 (3#10)
           (crossing_pass 1) (crossing_pass 2)).
  - closed_fact.
  - closed_fact.
  - left. closed_fact.
Defined.

Lemma accepted_command_line_witness :
  let argv := ["fmusim"; "a.fmu"; "1"; "0.3"; "1"; ","; ""; "more"]%string in
  let a := mkCommandLine "a.fmu" 1 (3#10) 1 ","%char None in
  parse_arguments read_lf read_d argv = Accepted a true /\
  (arg_loggingOn a = 0%Z \/ arg_loggingOn a = 1%Z).
Proof.
  cbv zeta.
  assert (H : parse_arguments read_lf read_d
                ["fmusim"; "a.fmu"; "1"; "0.3"; "1"; ","; ""; "more"]%string
              = Accepted (mkCommandLine "a.fmu" 1 (3#10) 1 ","%char None) true)
    by closed_fact.
  split; [exact H|].
  exact (proj1 (proj2 (proj2 (proj2 (proj2
           (accepted_command_line read_lf read_d _ _ _ H)))))).
Defined.

Lemma extra_arguments_are_ignored_witness :
  test_main quiet 10
            (["fmusim"; "a.fmu"; "1"; "0.3"; "0"; ","; "-"]%string
               ++ ["x"; "y"]%string)%list
  = test_main quiet 10 ["fmusim"; "a.fmu"; "1"; "0.3"; "0"; ","; "-"]%string.
Proof.
  unfold test_main.
  apply (extra_arguments_are_ignored warning read_lf read_d). cbn. lia.
Defined.

Lemma exit_status_ignores_the_simulation_witness :
  let r := match test_main getStates_fails 10
                           ["fmusim"; "a.fmu"; "1"; "0.3"]%string with
           | Some r => r
           | None => mkMainEnd exit_1 None []
           end in
  (exists s, simulation r
             = Some (Returned (Error "could not retrieve states") s)) /\
  match simulation r with
  | Some _ =>
      exit_status r = EXIT_SUCCESS /\
      exists dir, Some "fmuTmp123456"%string = Some dir /\
                  system_calls r = [("rm -rf " ++ dir ++ "/")%string]
  | None => exit_status r <> EXIT_SUCCESS /\ system_calls r = []
  end.
Proof.
  cbv zeta. split; [eexists; closed_fact|].
  apply (exit_status_ignores_the_simulation warning read_lf read_d true
           (fun _ => Some "fmuTmp123456"%string) (fun _ _ => true)
           (fun _ => Some (mkModelDescription 1 1)) (fun _ => "model"%string)
           (fun _ => Some (scripted getStates_fails)) true (fun _ => true)
           10 ["fmusim"; "a.fmu"; "1"; "0.3"]%string).
  closed_fact.
Defined.

Lemma empty_result_name_means_no_output_witness :
  let argv := ["fmusim"; "a.fmu"; "1"; "0.3"; "0"; ","; ""]%string in
  let r := match test_main quiet 10 argv with
           | Some r => r
           | None => mkMainEnd exit_1 None []
           end in
  let s := match simulation r with
           | Some (Returned _ s) => s
           | _ => snd (entry quiet 1)
           end in
  simulation r = Some (Returned Success s) /\
  nSteps s = 4%Z /\
  file s = None /\ fileClosed s = false.
Proof.
  cbv zeta. split; [closed_fact|]. split; [closed_fact|].
  apply (empty_result_name_means_no_output warning read_lf read_d true
           (fun _ => Some "fmuTmp123456"%string) (fun _ _ => true)
           (fun _ => Some (mkModelDescription 1 1)) (fun _ => "model"%string)
           (fun _ => Some (scripted quiet)) true (fun _ => true)
           10 ["fmusim"; "a.fmu"; "1"; "0.3"; "0"; ","; ""]%string
           (match test_main quiet 10
                    ["fmusim"; "a.fmu"; "1"; "0.3"; "0"; ","; ""]%string with
            | Some r => r
            | None => mkMainEnd exit_1 None []
            end) Success).
  - cbn. lia.
  - reflexivity.
  - closed_fact.
  - closed_fact.
Defined.
